(** * Webhook-driven subscription reconciliation (src/index.js)

    A shallow embedding of the billing backend: the [usuarios] table as a
    finite map keyed by the unique [email] column, the three webhook
    handlers and the two HTTP endpoints that the specification talks
    about, written as state-passing programs that may throw, with the
    JavaScript [try]/[catch] blocks kept where the source has them.

    Modelling conventions.
    - A Stripe payload field is an [option string]: [None] stands for
      JavaScript [null]/[undefined]; such a field is truthy when it is
      present and not the empty string, and [as_truthy] then gives its
      string.
    - [NOW()] is the [now] argument of a handler: every handler issues at
      most one statement that reads the clock, and MySQL evaluates [NOW()]
      once per statement.
    - The collaborators that are not part of the repository (the Stripe
      client, the random source, the faults of the database connection)
      are the fields of an environment record [Env]; every theorem is
      stated for an arbitrary environment.
    - Column widths and collations of MySQL are not modelled: [WHERE email = ?]
      is equality of strings.
    - A handler started by the webhook is run to completion before the
      response is returned; the interleaving of the un-awaited promise
      with the response is not modelled. *)

From Stdlib Require Import ZArith String Ascii List Lia.
From stdpp Require Import gmap strings.

(** ** Calendar arithmetic of the SQL engine *)

Module Calendar.
Local Open Scope Z_scope.

Record datetime : Type := DateTime
  { dt_year : Z; dt_month : Z; dt_day : Z; dt_seconds : Z }.

#[global] Instance datetime_eq_dec : EqDecision datetime.
Proof. solve_decision. Defined.

Inductive interval_unit : Type := MONTH | YEAR.

Definition is_leap (y : Z) : bool :=
  ((y mod 4 =? 0) && negb (y mod 100 =? 0)) || (y mod 400 =? 0).

Definition days_in_month (y m : Z) : Z :=
  if m =? 2 then (if is_leap y then 29 else 28)
  else if (m =? 4) || (m =? 6) || (m =? 9) || (m =? 11) then 30
  else 31.

(** Month arithmetic on a calendar date: the month index moves by [n], the
    day of the month is kept, clamped to the length of the target month;
    the time of day is untouched. *)
Definition add_months (n : Z) (t : datetime) : datetime :=
  let k := dt_year t * 12 + (dt_month t - 1) + n in
  let y := k / 12 in
  let m := k mod 12 + 1 in
  DateTime y m (Z.min (dt_day t) (days_in_month y m)) (dt_seconds t).

(** [DATE_ADD(t, INTERVAL n u)] for the two units the statements of the
    source use. A year is twelve months (29 February lands on 28 February
    in a common year). *)
Definition DATE_ADD (t : datetime) (n : Z) (u : interval_unit) : datetime :=
  match u with
  | MONTH => add_months n t
  | YEAR => add_months (12 * n) t
  end.

End Calendar.
Export Calendar.

(** ** JavaScript values of a JSON request body *)

Inductive jsval : Type :=
  | JUndefined
  | JNull
  | JBool (b : bool)
  | JNum (n : Z)
  | JStr (s : string)
  | JObject.

Definition str_empty (s : string) : bool :=
  match s with EmptyString => true | String _ _ => false end.

(** [!v] is [negb (truthy v)]. *)
Definition truthy (v : jsval) : bool :=
  match v with
  | JUndefined | JNull => false
  | JBool b => b
  | JNum n => negb (n =? 0)%Z
  | JStr s => negb (str_empty s)
  | JObject => true
  end.

(** [v === "lit"] *)
Definition strict_eq_str (v : jsval) (lit : string) : bool :=
  match v with
  | JStr s => bool_decide (s = lit)
  | _ => false
  end.

(** ** Access Token Issuer: [crypto.randomBytes(32).toString("base64url")] *)

Module Base64Url.
Local Open Scope Z_scope.

Definition alphabet : list ascii :=
  list_ascii_of_string
    "ABCDEFGHIJKLMNOPQRSTUVWXYZabcdefghijklmnopqrstuvwxyz0123456789-_".

Definition digit (n : Z) : ascii := nth (Z.to_nat (n mod 64)) alphabet "A"%char.

(** Three bytes give four digits; a tail of one or two bytes gives two or
    three digits and, in the URL-safe form, no padding. *)
Fixpoint encode (bs : list Z) : string :=
  match bs with
  | [] => EmptyString
  | [a] =>
      String (digit (Z.shiftr a 2))
        (String (digit (Z.shiftl (Z.land a 3) 4)) EmptyString)
  | [a; b] =>
      String (digit (Z.shiftr a 2))
        (String (digit (Z.lor (Z.shiftl (Z.land a 3) 4) (Z.shiftr b 4)))
           (String (digit (Z.shiftl (Z.land b 15) 2)) EmptyString))
  | a :: b :: c :: rest =>
      String (digit (Z.shiftr a 2))
        (String (digit (Z.lor (Z.shiftl (Z.land a 3) 4) (Z.shiftr b 4)))
           (String (digit (Z.lor (Z.shiftl (Z.land b 15) 2) (Z.shiftr c 6)))
              (String (digit (Z.land c 63)) (encode rest))))
  end.

End Base64Url.

(** ** Data model *)

(** One row of table [usuarios] (the [CREATE TABLE] of [initDb]). *)
Record Usuario : Type := mkUsuario
  { id : Z;
    email : string;
    nome : option string;
    stripe_customer_id : option string;
    status : string;
    plano : option string;
    api_key : option string;
    data_criacao : datetime;
    data_assinatura : option datetime;
    data_renovacao : option datetime;
    data_modificacao : option datetime }.

(** [event.data.object], with the fields the handlers read of it. The
    handlers are duck-typed: each reads its fields of whatever object the
    event carries. *)
Record CustomerDetails : Type := { cd_email : option string }.
Record Metadata : Type := { md_plan : option string }.
Record DataObject : Type :=
  { customer_details : option CustomerDetails;
    customer : option string;
    metadata : option Metadata;
    subscription : option string }.

(** The objects retrieved from the Stripe API. *)
Record Plan : Type := { interval : string; interval_count : Z }.
Record SubscriptionItem : Type := { item_plan : option Plan }.
Record Subscription : Type := { items_data : list SubscriptionItem }.
Record Customer : Type := { customer_id : string; customer_email : option string }.

Record Event : Type := { event_type : string; data_object : DataObject }.

(** The create requests sent to Stripe by the checkout endpoint. *)
Inductive StripeCreate : Type :=
  | CreateProduct (name description : string)
  | CreatePrice (product : string) (unit_amount : Z) (currency : string)
      (interval : string) (interval_count : Z)
  | CreateCustomer (email : jsval) (description : string)
  | CreateSession (success_url cancel_url mode price : string) (quantity : Z)
      (metadata_plan : string) (customer : option string).

Inductive LogLine : Type :=
  | Log (msg : string)
  | Error (msg err : string).

(** The mutable world of the process: the table with its auto-increment
    counter, the console, the number of random draws and of database
    queries made so far (indices into the oracles of [Env]), and the
    create requests sent to Stripe, oldest first. *)
Record World : Type := mkWorld
  { usuarios : gmap string Usuario;
    auto_increment : Z;
    console : list LogLine;
    draws : nat;
    queries : nat;
    stripe_requests : list StripeCreate }.

(** The collaborators. A Stripe call or a query that fails gives the
    message of the exception it throws. *)
Record Env : Type :=
  { entropy : nat -> nat -> Z;
    db_fault : nat -> option string;
    STRIPE_WEBHOOK_SECRET : option string;
    constructEvent : string -> option string -> option string -> Event + string;
    subscriptions_retrieve : string -> Subscription + string;
    customers_retrieve : string -> Customer + string;
    customers_list : jsval -> list Customer + string;
    stripe_create : StripeCreate -> string + string }.

(** ** Programs: state passing with exceptions *)

Inductive result (A : Type) : Type :=
  | Ok (a : A)
  | Throw (e : string).
Arguments Ok {A} a.
Arguments Throw {A} e.

Definition M (A : Type) : Type := World -> result A * World.

Definition ret {A} (a : A) : M A := fun w => (Ok a, w).

Definition bind {A B} (c : M A) (k : A -> M B) : M B :=
  fun w =>
    match c w with
    | (Ok a, w') => k a w'
    | (Throw e, w') => (Throw e, w')
    end.

Definition throw {A} (e : string) : M A := fun w => (Throw e, w).

(** [try { c } catch (error) { h error }] *)
Definition try_catch {A} (c : M A) (h : string -> M A) : M A :=
  fun w =>
    match c w with
    | (Ok a, w') => (Ok a, w')
    | (Throw e, w') => h e w'
    end.

(** The result of an API call or statement, re-thrown when it failed. *)
Definition lift {A} (r : A + string) : M A :=
  match r with
  | inl a => ret a
  | inr e => throw e
  end.

Declare Scope prog_scope.
Delimit Scope prog_scope with prog.
Notation "x <- c ;; k" := (bind c (fun x => k))
  (at level 100, c at next level, right associativity) : prog_scope.
Notation "c ;; k" := (bind c (fun _ => k))
  (at level 100, right associativity) : prog_scope.
Local Open Scope prog_scope.

Definition console_log (msg : string) : M unit :=
  fun w =>
    (Ok tt,
     mkWorld (usuarios w) (auto_increment w) (console w ++ [Log msg])
       (draws w) (queries w) (stripe_requests w)).

Definition console_error (msg err : string) : M unit :=
  fun w =>
    (Ok tt,
     mkWorld (usuarios w) (auto_increment w) (console w ++ [Error msg err])
       (draws w) (queries w) (stripe_requests w)).

Definition set_usuarios (t : gmap string Usuario) (w : World) : World :=
  mkWorld t (auto_increment w) (console w) (draws w) (queries w)
    (stripe_requests w).

(** [`${v}`] for a field that is a string or [null]. *)
Definition show_str (v : option string) : string :=
  match v with
  | Some s => s
  | None => "null"
  end.

(** The string of a truthy field; [None] when the field is absent or the
    empty string, the two cases in which [!v] holds. *)
Definition as_truthy (v : option string) : option string :=
  match v with
  | Some s => if str_empty s then None else Some s
  | None => None
  end.

(** ** SQL statements of the handlers *)

Module Sql.

(** [SELECT email, api_key FROM usuarios WHERE email = ?]; [email] is
    UNIQUE, so there is at most one row. *)
Definition SELECT_by_email (e : string) : M (list Usuario) :=
  fun w =>
    match usuarios w !! e with
    | Some r => (Ok [r], w)
    | None => (Ok [], w)
    end.

(** [INSERT INTO usuarios (email, stripe_customer_id, status, plano,
    api_key, data_assinatura, data_renovacao) VALUES (?, ?, 'ativo', ?, ?,
    NOW(), DATE_ADD(NOW(), INTERVAL 3 MONTH))]. The columns that are not
    listed take their defaults: [id] the auto-increment counter,
    [data_criacao] the current timestamp, the others [NULL]. *)
Definition INSERT_usuario (now : datetime) (e : string)
    (customerId planName : option string) (apiKey : string) : M unit :=
  fun w =>
    match usuarios w !! e with
    | Some _ => (Throw "ER_DUP_ENTRY", w)
    | None =>
        (Ok tt,
         mkWorld
           (<[e := mkUsuario (auto_increment w) e None customerId "ativo"
                    planName (Some apiKey) now (Some now)
                    (Some (DATE_ADD now 3 MONTH)) None]> (usuarios w))
           (auto_increment w + 1) (console w) (draws w) (queries w)
           (stripe_requests w))
    end.

(** [UPDATE usuarios SET ... WHERE email = ?]: the row of that email, if
    any, is rewritten by [f]; a [NULL] parameter matches no row. *)
Definition UPDATE_where_email (f : Usuario -> Usuario) (e : option string)
    : M unit :=
  fun w =>
    match e with
    | Some e => (Ok tt, set_usuarios (alter f e (usuarios w)) w)
    | None => (Ok tt, w)
    end.

(** [SET stripe_customer_id = ?, status = 'ativo', plano = ?, api_key = ?,
    data_assinatura = NOW(), data_renovacao = DATE_ADD(NOW(), INTERVAL 3
    MONTH)] *)
Definition SET_checkout (now : datetime) (customerId planName : option string)
    (apiKey : string) (r : Usuario) : Usuario :=
  mkUsuario (id r) (email r) (nome r) customerId "ativo" planName
    (Some apiKey) (data_criacao r) (Some now) (Some (DATE_ADD now 3 MONTH))
    (data_modificacao r).

(** [SET status = 'ativo', plano = ?, data_renovacao = ${intervalClause},
    data_modificacao = NOW()] *)
Definition SET_invoice (now : datetime) (planName : string)
    (intervalClause : Z * interval_unit) (r : Usuario) : Usuario :=
  mkUsuario (id r) (email r) (nome r) (stripe_customer_id r) "ativo"
    (Some planName) (api_key r) (data_criacao r) (data_assinatura r)
    (Some (DATE_ADD now (fst intervalClause) (snd intervalClause)))
    (Some now).

(** [SET status = 'inativo', data_modificacao = NOW()] *)
Definition SET_canceled (now : datetime) (r : Usuario) : Usuario :=
  mkUsuario (id r) (email r) (nome r) (stripe_customer_id r) "inativo"
    (plano r) (api_key r) (data_criacao r) (data_assinatura r)
    (data_renovacao r) (Some now).

End Sql.

(** ** The program *)

Section Program.
Variable env : Env.

(** [crypto.randomBytes(n)]: the next draw of the random source. *)
Definition randomBytes (n : nat) : M (list Z) :=
  fun w =>
    (Ok (map (fun i => (entropy env (draws w) i mod 256)%Z) (seq 0 n)),
     mkWorld (usuarios w) (auto_increment w) (console w) (S (draws w))
       (queries w) (stripe_requests w)).

Definition generateApiKey : M string :=
  bytes <- randomBytes 32 ;;
  ret (Base64Url.encode bytes).

(** [await pool.query(...)]: the statement runs unless the connection
    fails at this query. *)
Definition pool_query {A} (stmt : M A) : M A :=
  fun w =>
    let w' :=
      mkWorld (usuarios w) (auto_increment w) (console w) (draws w)
        (S (queries w)) (stripe_requests w) in
    match db_fault env (queries w) with
    | Some e => (Throw e, w')
    | None => stmt w'
    end.

(** A create call of the Stripe client. *)
Definition stripe_request (c : StripeCreate) : M string :=
  fun w =>
    let w' :=
      mkWorld (usuarios w) (auto_increment w) (console w) (draws w)
        (queries w) (stripe_requests w ++ [c]) in
    match stripe_create env c with
    | inl created => (Ok created, w')
    | inr e => (Throw e, w')
    end.

(** *** [handleCheckoutSessionCompleted] (lines 355-388) *)

Definition checkout_try (now : datetime) (session : DataObject) : M unit :=
  let email :=
    match customer_details session with
    | Some details => cd_email details
    | None => None
    end in
  let customerId := customer session in
  let planName :=
    match metadata session with
    | Some m => md_plan m
    | None => Some "desconhecido"
    end in
  match as_truthy email with
  | None => console_log "Email não encontrado na sessão de checkout"
  | Some email =>
      rows <- pool_query (Sql.SELECT_by_email email) ;;
      match rows with
      | [] =>
          apiKey <- generateApiKey ;;
          pool_query (Sql.INSERT_usuario now email customerId planName apiKey)
      | row :: _ =>
          apiKey <- match as_truthy (api_key row) with
                    | Some k => ret k
                    | None => generateApiKey
                    end ;;
          pool_query
            (Sql.UPDATE_where_email
               (Sql.SET_checkout now customerId planName apiKey) (Some email))
      end ;;
      console_log ("Usuário " +:+ email +:+ " processado com sucesso após checkout")
  end.

Definition handleCheckoutSessionCompleted (now : datetime)
    (session : DataObject) : M unit :=
  try_catch (checkout_try now session)
    (fun error => console_error "Erro ao processar checkout:" error).

(** *** [handleInvoicePaid] (lines 391-420) *)

(** The plan name and the interval clause of lines 400-411. *)
Definition plan_of_interval (plan : Plan) : string * (Z * interval_unit) :=
  if bool_decide (interval plan = "year") then
    ("Plano Anual", (1%Z, YEAR))
  else if bool_decide (interval plan = "month") && (interval_count plan =? 3)%Z then
    ("Plano Trimestral", (3%Z, MONTH))
  else
    ("Plano Personalizado", (1%Z, MONTH)).

Definition invoice_try (now : datetime) (invoice : DataObject) : M unit :=
  let subscriptionId := subscription invoice in
  let customerId := customer invoice in
  match as_truthy subscriptionId, as_truthy customerId with
  | Some subscriptionId, Some customerId =>
      sub <- lift (subscriptions_retrieve env subscriptionId) ;;
      cust <- lift (customers_retrieve env customerId) ;;
      let email := customer_email cust in
      plan <- match items_data sub with
              | item :: _ =>
                  match item_plan item with
                  | Some plan => ret plan
                  | None => throw "TypeError: Cannot read properties of null (reading 'interval')"
                  end
              | [] => throw "TypeError: Cannot read properties of undefined (reading 'plan')"
              end ;;
      let '(planName, intervalClause) := plan_of_interval plan in
      pool_query
        (Sql.UPDATE_where_email (Sql.SET_invoice now planName intervalClause)
           email) ;;
      console_log ("Usuário " +:+ show_str email +:+ " atualizado após pagamento da fatura")
  | _, _ => ret tt
  end.

Definition handleInvoicePaid (now : datetime) (invoice : DataObject) : M unit :=
  try_catch (invoice_try now invoice)
    (fun error => console_error "Erro ao processar invoice paga:" error).

(** *** [handleSubscriptionCanceled] (lines 423-437) *)

Definition canceled_try (now : datetime) (sub : DataObject) : M unit :=
  let customerId := customer sub in
  match as_truthy customerId with
  | None => ret tt
  | Some customerId =>
      cust <- lift (customers_retrieve env customerId) ;;
      let email := customer_email cust in
      pool_query (Sql.UPDATE_where_email (Sql.SET_canceled now) email) ;;
      console_log ("Assinatura do usuário " +:+ show_str email +:+ " cancelada")
  end.

Definition handleSubscriptionCanceled (now : datetime) (sub : DataObject)
    : M unit :=
  try_catch (canceled_try now sub)
    (fun error =>
       console_error "Erro ao processar cancelamento da assinatura:" error).

(** *** [POST /webhook-stripe] (lines 322-352) *)

Record WebhookRequest : Type :=
  { raw_body : string; stripe_signature : option string }.

Inductive ResBody : Type :=
  | Send (text : string)
  | Json (fields : list (string * jsval)).

Record Response : Type := mkResponse { status_code : Z; res_body : ResBody }.

(** The [switch] on [event.type]. *)
Definition dispatch (now : datetime) (event : Event) : M unit :=
  if bool_decide (event_type event = "checkout.session.completed") then
    handleCheckoutSessionCompleted now (data_object event)
  else if bool_decide (event_type event = "invoice.paid") then
    handleInvoicePaid now (data_object event)
  else if bool_decide (event_type event = "customer.subscription.deleted") then
    handleSubscriptionCanceled now (data_object event)
  else
    console_log ("Evento não tratado: " +:+ event_type event).

Definition webhook_stripe (now : datetime) (req : WebhookRequest) : M Response :=
  match
    constructEvent env (raw_body req) (stripe_signature req)
      (STRIPE_WEBHOOK_SECRET env)
  with
  | inr message =>
      console_error "Erro no webhook:" message ;;
      ret (mkResponse 400 (Send ("Webhook Error: " +:+ message)))
  | inl event =>
      dispatch now event ;;
      ret (mkResponse 200 (Json [("status", JStr "success")]))
  end.

(** The same [switch] over the [try] blocks of the handlers, without
    their [catch]: it throws exactly when the handler would have caught
    and logged an exception. *)
Definition dispatch_try (now : datetime) (event : Event) : M unit :=
  if bool_decide (event_type event = "checkout.session.completed") then
    checkout_try now (data_object event)
  else if bool_decide (event_type event = "invoice.paid") then
    invoice_try now (data_object event)
  else if bool_decide (event_type event = "customer.subscription.deleted") then
    canceled_try now (data_object event)
  else
    console_log ("Evento não tratado: " +:+ event_type event).

(** *** [POST /api/create-checkout-session] (lines 253-319) *)

Record CheckoutRequest : Type :=
  { body_planId : jsval;
    body_email : jsval;
    req_protocol : string;
    req_host : string }.

(** Amount (in centavos), interval, interval count and plan name of
    lines 261-274; [None] is the [else] branch. *)
Definition plan_of_planId (planId : jsval) : option (Z * string * Z * string) :=
  if strict_eq_str planId "trimestral" then
    Some (7500%Z, "month", 3%Z, "Plano Trimestral")
  else if strict_eq_str planId "anual" then
    Some (18000%Z, "year", 1%Z, "Plano Anual")
  else None.

Definition bad_request (error : string) : Response :=
  mkResponse 400 (Json [("success", JBool false); ("error", JStr error)]).

Definition checkout_session_try (req : CheckoutRequest) : M Response :=
  let planId := body_planId req in
  let email := body_email req in
  if negb (truthy planId) then ret (bad_request "Plano não especificado")
  else
    match plan_of_planId planId with
    | None => ret (bad_request "Plano inválido")
    | Some (amount, interval, intervalCount, planName) =>
        product <- stripe_request
                     (CreateProduct planName
                        ("Assinatura " +:+ planName +:+ " do PayoutHub")) ;;
        price <- stripe_request
                   (CreatePrice product amount "brl" interval intervalCount) ;;
        customer <- (if truthy email then
                       customers <- lift (customers_list env email) ;;
                       match customers with
                       | c :: _ => ret (Some (customer_id c))
                       | [] =>
                           created <- stripe_request
                                        (CreateCustomer email "Cliente PayoutHub") ;;
                           ret (Some created)
                       end
                     else ret None) ;;
        session <- stripe_request
                     (CreateSession
                        (req_protocol req +:+ "://" +:+ req_host req
                           +:+ "/checkout-success?session_id={CHECKOUT_SESSION_ID}")
                        (req_protocol req +:+ "://" +:+ req_host req +:+ "/")
                        "subscription" price 1 planName customer) ;;
        ret (mkResponse 200
               (Json [("success", JBool true); ("sessionId", JStr session)]))
    end.

Definition create_checkout_session (req : CheckoutRequest) : M Response :=
  try_catch (checkout_session_try req)
    (fun error =>
       console_error "Erro ao criar sessão de checkout:" error ;;
       ret (mkResponse 500
              (Json [("success", JBool false); ("error", JStr error)]))).

(** A delivery is an event with the clock reading of its statement; a
    history of deliveries is replayed in order. *)
Fixpoint replay (deliveries : list (datetime * Event)) (w : World) : World :=
  match deliveries with
  | [] => w
  | (now, event) :: rest => replay rest (snd (dispatch now event w))
  end.

End Program.

(** ** What the statements below compare *)

(** [session.customer_details && session.customer_details.email] *)
Definition session_email (session : DataObject) : option string :=
  match customer_details session with
  | Some details => cd_email details
  | None => None
  end.

(** [session.metadata ? session.metadata.plan : "desconhecido"] *)
Definition session_plan (session : DataObject) : option string :=
  match metadata session with
  | Some m => md_plan m
  | None => Some "desconhecido"
  end.

(** [subscription.items.data[0].plan], when it can be read. *)
Definition first_plan (sub : Subscription) : option Plan :=
  match items_data sub with
  | item :: _ => item_plan item
  | [] => None
  end.

(** The columns of a row that no statement fills from the clock of an
    update: all but [data_assinatura], [data_renovacao] and
    [data_modificacao]. *)
Definition untimed (r : Usuario)
    : Z * string * option string * option string * string * option string
      * option string * datetime :=
  (id r, email r, nome r, stripe_customer_id r, status r, plano r, api_key r,
   data_criacao r).

(** The lines written to the console between two worlds. *)
Definition logged (before after : World) : list LogLine :=
  drop (length (console before)) (console after).

Definition is_error (l : LogLine) : bool :=
  match l with
  | Error _ _ => true
  | Log _ => false
  end.

(** An error was reported between two worlds. *)
Definition reports_error (before after : World) : bool :=
  existsb is_error (logged before after).

Definition add_log (l : LogLine) (w : World) : World :=
  mkWorld (usuarios w) (auto_increment w) (console w ++ [l]) (draws w)
    (queries w) (stripe_requests w).

(** The token that [generateApiKey] issues at the current draw. *)
Definition next_key (env : Env) (w : World) : string :=
  Base64Url.encode
    (map (fun i => (entropy env (draws w) i mod 256)%Z) (seq 0 32)).

(** Plan resolution as the specification words it: the three table rows,
    and for every other combination a custom plan renewed after
    [intervalCount] times the interval unit. [None] for a unit that is
    neither month nor year. *)
Definition spec_renewal (plan : Plan) (from : datetime) : option datetime :=
  if bool_decide (interval plan = "month") then
    Some (DATE_ADD from (interval_count plan) MONTH)
  else if bool_decide (interval plan = "year") then
    Some (DATE_ADD from (interval_count plan) YEAR)
  else None.

(** The renewal date that [handleInvoicePaid] writes for a plan. *)
Definition renewalRule (plan : Plan) (from : datetime) : datetime :=
  DATE_ADD from (fst (snd (plan_of_interval plan)))
    (snd (snd (plan_of_interval plan))).

(** ** Sample data *)

Module Sample.

Definition t0 : datetime := DateTime 2024 1 15 43200.
Definition t1 : datetime := DateTime 2024 3 31 0.

Definition checkout_session : DataObject :=
  {| customer_details := Some {| cd_email := Some "a@x.com" |};
     customer := Some "cus_1";
     metadata := Some {| md_plan := Some "Plano Anual" |};
     subscription := Some "sub_1" |}.

Definition bare_session : DataObject :=
  {| customer_details := Some {| cd_email := Some "a@x.com" |};
     customer := Some "cus_1";
     metadata := None;
     subscription := None |}.

Definition anonymous_session : DataObject :=
  {| customer_details := None;
     customer := Some "cus_1";
     metadata := None;
     subscription := None |}.

Definition invoice : DataObject :=
  {| customer_details := None;
     customer := Some "cus_1";
     metadata := None;
     subscription := Some "sub_1" |}.

Definition ghost_invoice : DataObject :=
  {| customer_details := None;
     customer := Some "cus_ghost";
     metadata := None;
     subscription := Some "sub_1" |}.

Definition no_customer : DataObject :=
  {| customer_details := None;
     customer := None;
     metadata := None;
     subscription := Some "sub_1" |}.

Definition half_year : Plan := {| interval := "month"; interval_count := 6 |}.
Definition two_years : Plan := {| interval := "year"; interval_count := 2 |}.

Definition parse (body : string) : Event :=
  if bool_decide (body = "checkout") then
    {| event_type := "checkout.session.completed"; data_object := checkout_session |}
  else if bool_decide (body = "invoice") then
    {| event_type := "invoice.paid"; data_object := invoice |}
  else if bool_decide (body = "deleted") then
    {| event_type := "customer.subscription.deleted"; data_object := invoice |}
  else
    {| event_type := "charge.succeeded"; data_object := invoice |}.

Definition env : Env :=
  {| entropy := fun draw i => Z.of_nat (7 * draw + i);
     db_fault := fun _ => None;
     STRIPE_WEBHOOK_SECRET := Some "whsec_test";
     constructEvent := fun body sig secret =>
       if bool_decide (sig = Some "t=1,v1=good") then inl (parse body)
       else inr "No signatures found matching the expected signature for payload";
     subscriptions_retrieve := fun _ =>
       inl {| items_data :=
                [ {| item_plan := Some {| interval := "year"; interval_count := 1 |} |} ] |};
     customers_retrieve := fun cid =>
       if bool_decide (cid = "cus_1") then
         inl {| customer_id := cid; customer_email := Some "a@x.com" |}
       else inl {| customer_id := cid; customer_email := Some "ghost@x.com" |};
     customers_list := fun _ => inl [];
     stripe_create := fun c =>
       match c with
       | CreateProduct _ _ => inl "prod_1"
       | CreatePrice _ _ _ _ _ => inl "price_1"
       | CreateCustomer _ _ => inl "cus_1"
       | CreateSession _ _ _ _ _ _ _ => inl "cs_1"
       end |}.

Definition empty_world : World := mkWorld ∅ 1 [] 0 0 [].

Definition old_row : Usuario :=
  mkUsuario 1 "a@x.com" None None "inativo" (Some "Plano Trimestral")
    (Some "tok") (DateTime 2023 12 1 0) None None None.

Definition one_row : World := mkWorld {[ "a@x.com" := old_row ]} 2 [] 0 0 [].

Definition good_request : WebhookRequest :=
  {| raw_body := "checkout"; stripe_signature := Some "t=1,v1=good" |}.

Definition forged_request : WebhookRequest :=
  {| raw_body := "checkout"; stripe_signature := Some "t=1,v1=forged" |}.

Definition unknown_request : WebhookRequest :=
  {| raw_body := "charge"; stripe_signature := Some "t=1,v1=good" |}.

Definition checkout_request (planId : jsval) : CheckoutRequest :=
  {| body_planId := planId;
     body_email := JUndefined;
     req_protocol := "https";
     req_host := "example.test" |}.

End Sample.

(** The token the update path of a checkout writes for an existing row:
    the stored one when it is truthy, a fresh one otherwise. *)
Definition key_for (env : Env) (w : World) (row : Usuario) : string :=
  match as_truthy (api_key row) with
  | Some k => k
  | None => next_key env w
  end.

(** The email and plan for which [handleInvoicePaid] issues its UPDATE:
    both ids present, both Stripe lookups answered, a plan on the first
    subscription item and an email on the customer. *)
Definition invoice_target (env : Env) (invoice : DataObject)
    : option (string * Plan) :=
  match as_truthy (subscription invoice), as_truthy (customer invoice) with
  | Some subscriptionId, Some customerId =>
      match subscriptions_retrieve env subscriptionId,
            customers_retrieve env customerId with
      | inl sub, inl cust =>
          match first_plan sub, customer_email cust with
          | Some plan, Some e => Some (e, plan)
          | _, _ => None
          end
      | _, _ => None
      end
  | _, _ => None
  end.

(** The email for which [handleSubscriptionCanceled] issues its UPDATE. *)
Definition canceled_target (env : Env) (sub : DataObject) : option string :=
  match as_truthy (customer sub) with
  | Some customerId =>
      match customers_retrieve env customerId with
      | inl cust => customer_email cust
      | inr _ => None
      end
  | None => None
  end.

(** No row holds the empty string as its token: every token is [NULL] or
    a real one. True of the empty table that [initDb] creates. *)
Definition tokens_nonempty (t : gmap string Usuario) : Prop :=
  forall e row k, t !! e = Some row -> api_key row = Some k -> str_empty k = false.

(** What one delivery can do to the table: nothing, the INSERT of a row
    with a fresh token for an email that has none, or the rewriting of
    one row, which keeps its token or, when it had no real one, gets a
    fresh one. *)
Inductive table_step (t t' : gmap string Usuario) : Prop :=
  | step_same : t' = t -> table_step t t'
  | step_insert e row k :
      t !! e = None -> api_key row = Some k -> str_empty k = false ->
      t' = <[e := row]> t -> table_step t t'
  | step_keep e row row' :
      t !! e = Some row -> api_key row' = api_key row ->
      t' = <[e := row']> t -> table_step t t'
  | step_issue e row row' k :
      t !! e = Some row -> as_truthy (api_key row) = None ->
      api_key row' = Some k -> str_empty k = false ->
      t' = <[e := row']> t -> table_step t t'.

Arguments generateApiKey : simpl never.
Arguments next_key : simpl never.

(** ** The other endpoints and the middleware *)

(** [s.split(sep)] for a separator of one character: the pieces between
    the separators, in order; the empty string gives one empty piece. *)
Fixpoint split_on (sep : ascii) (s : string) : list string :=
  match s with
  | EmptyString => [EmptyString]
  | String c rest =>
      if Ascii.eqb c sep then EmptyString :: split_on sep rest
      else
        match split_on sep rest with
        | first :: others => String c first :: others
        | [] => [String c EmptyString]
        end
  end.

Definition json_of (v : option string) : jsval :=
  match v with
  | Some s => JStr s
  | None => JNull
  end.

Definition unauthorized (error : string) : Response :=
  mkResponse 401 (Json [("success", JBool false); ("error", JStr error)]).

Definition server_error (error : string) : Response :=
  mkResponse 500 (Json [("success", JBool false); ("error", JStr error)]).

(** [SELECT * FROM usuarios WHERE api_key = ?]: the rows whose token is
    the parameter, in the order the engine returns them; a [NULL] token
    and a [NULL] parameter match nothing. *)
Definition SELECT_by_api_key (k : option string) : M (list Usuario) :=
  fun w =>
    match k with
    | Some k =>
        (Ok (filter (fun row => api_key row = Some k)
               (map snd (map_to_list (usuarios w)))), w)
    | None => (Ok [], w)
    end.

(** What the middleware does with a request: answer it, or attach the
    user and call [next()]. *)
Inductive Middleware : Type :=
  | Next (user : Usuario)
  | Reply (res : Response).

(** The [user] object of [GET /api/user-info]. *)
Record UserInfo : Type :=
  { info_email : string;
    info_nome : string;
    info_status : string;
    info_plano : option string;
    info_dataAssinatura : option datetime;
    info_dataRenovacao : option datetime }.

Inductive UserInfoResponse : Type :=
  | InfoUser (user : UserInfo)
  | InfoOther (res : Response).

Section Endpoints.
Variable env : Env.

(** *** [verifyApiKey] (lines 63-86); [authorization] is
    [req.headers.authorization]. *)
Definition verifyApiKey (authorization : option string) : M Middleware :=
  match as_truthy authorization with
  | None => ret (Reply (unauthorized "API key não fornecida"))
  | Some authHeader =>
      if negb (String.prefix "Bearer " authHeader) then
        ret (Reply (unauthorized "API key não fornecida"))
      else
        let apiKey := split_on " " authHeader !! 1%nat in
        try_catch
          (rows <- pool_query env (SELECT_by_api_key apiKey) ;;
           match rows with
           | [] => ret (Reply (unauthorized "API key inválida"))
           | user :: _ => ret (Next user)
           end)
          (fun error => ret (Reply (server_error error)))
  end.

(** *** [POST /api/create-customer] (lines 99-124) *)
Definition create_customer (email : jsval) : M Response :=
  try_catch
    (if negb (truthy email) then ret (bad_request "Email não fornecido")
     else
       customers <- lift (customers_list env email) ;;
       customerId <- match customers with
                     | c :: _ =>
                         console_log
                           ("Cliente existente encontrado: " +:+ customer_id c) ;;
                         ret (customer_id c)
                     | [] =>
                         created <- stripe_request env
                                      (CreateCustomer email "Cliente PayoutHub") ;;
                         console_log ("Novo cliente criado: " +:+ created) ;;
                         ret created
                     end ;;
       ret (mkResponse 200
              (Json [("success", JBool true); ("customerId", JStr customerId)])))
    (fun error =>
       console_error "Erro ao criar cliente:" error ;;
       ret (server_error error)).

(** The three endpoints below read the table by email. Their [email] is
    the string of the request, or [None] when the request has none. *)

(** *** [POST /api/verify-user] (lines 127-153) *)
Definition verify_user (email : option string) : M Response :=
  try_catch
    (match as_truthy email with
     | None => ret (bad_request "Email não fornecido")
     | Some email =>
         rows <- pool_query env (Sql.SELECT_by_email email) ;;
         match rows with
         | row :: _ =>
             ret (mkResponse 200
                    (Json [("success", JBool true); ("exists", JBool true);
                           ("status", JStr (status row));
                           ("customerId", json_of (stripe_customer_id row))]))
         | [] =>
             ret (mkResponse 200
                    (Json [("success", JBool true); ("exists", JBool false)]))
         end
     end)
    (fun error =>
       console_error "Erro ao verificar usuário:" error ;;
       ret (server_error error)).

(** *** [GET /api/user-info] (lines 156-188) *)

(** [user.nome || user.email.split("@")[0]] *)
Definition display_name (user : Usuario) : string :=
  match as_truthy (nome user) with
  | Some n => n
  | None => default EmptyString (split_on "@" (email user) !! 0%nat)
  end.

Definition user_info (address : option string) : M UserInfoResponse :=
  try_catch
    (match as_truthy address with
     | None => ret (InfoOther (bad_request "Email não fornecido"))
     | Some address =>
         rows <- pool_query env (Sql.SELECT_by_email address) ;;
         match rows with
         | user :: _ =>
             ret (InfoUser
                    {| info_email := email user;
                       info_nome := display_name user;
                       info_status := status user;
                       info_plano := plano user;
                       info_dataAssinatura := data_assinatura user;
                       info_dataRenovacao := data_renovacao user |})
         | [] =>
             ret (InfoOther
                    (mkResponse 200
                       (Json [("success", JBool false);
                              ("error", JStr "Usuário não encontrado")])))
         end
     end)
    (fun error =>
       console_error "Erro ao obter informações do usuário:" error ;;
       ret (InfoOther (server_error error))).

(** *** [GET /api/user/api-key] (lines 191-212) *)
Definition user_api_key (email : option string) : M Response :=
  try_catch
    (match as_truthy email with
     | None => ret (bad_request "Email não fornecido")
     | Some email =>
         rows <- pool_query env (Sql.SELECT_by_email email) ;;
         match rows with
         | row :: _ =>
             match as_truthy (api_key row) with
             | Some k =>
                 ret (mkResponse 200
                        (Json [("success", JBool true); ("apiKey", JStr k)]))
             | None =>
                 ret (mkResponse 200
                        (Json [("success", JBool false);
                               ("error", JStr "API Key não encontrada")]))
             end
         | [] =>
             ret (mkResponse 200
                    (Json [("success", JBool false);
                           ("error", JStr "API Key não encontrada")]))
         end
     end)
    (fun error =>
       console_error "Erro ao obter API Key:" error ;;
       ret (server_error error)).

End Endpoints.

(** ** What the further statements compare *)

(** Every character of [s] is one of the 64 of the URL-safe alphabet. *)
Definition url_safe (s : string) : Prop :=
  Forall (fun c => In c Base64Url.alphabet) (list_ascii_of_string s).

Definition is_byte (b : Z) : Prop := (0 <= b < 256)%Z.

(** The value of a digit: its position in the alphabet. *)
Fixpoint position (c : ascii) (l : list ascii) : Z :=
  match l with
  | [] => 0
  | x :: rest => if Ascii.eqb c x then 0 else (1 + position c rest)%Z
  end.

Definition undigit (c : ascii) : Z := position c Base64Url.alphabet.

(** Reading a token back into bytes, four digits for three bytes; the
    inverse of [Base64Url.encode] on bytes. *)
Fixpoint decode (s : string) : list Z :=
  match s with
  | String c1 (String c2 rest2) =>
      let s1 := undigit c1 in
      let s2 := undigit c2 in
      let a := Z.lor (Z.shiftl s1 2) (Z.shiftr s2 4) in
      match rest2 with
      | EmptyString => [a]
      | String c3 rest3 =>
          let s3 := undigit c3 in
          let b := Z.lor (Z.shiftl (Z.land s2 15) 4) (Z.shiftr s3 2) in
          match rest3 with
          | EmptyString => [a; b]
          | String c4 rest4 =>
              let s4 := undigit c4 in
              let c := Z.lor (Z.shiftl (Z.land s3 3) 6) s4 in
              a :: b :: c :: decode rest4
          end
      end
  | _ => []
  end.

(** The 32 bytes of the draw that [generateApiKey] encodes next. *)
Definition next_bytes (env : Env) (w : World) : list Z :=
  map (fun i => (entropy env (draws w) i mod 256)%Z) (seq 0 32).

(** The keys of the table: every row is stored under its own email, ids
    lie below the auto-increment counter, and no two rows share an id. *)
Definition keys_wf (w : World) : Prop :=
  (forall e row,
     usuarios w !! e = Some row ->
     email row = e /\ (id row < auto_increment w)%Z) /\
  (forall e1 e2 r1 r2,
     usuarios w !! e1 = Some r1 -> usuarios w !! e2 = Some r2 ->
     id r1 = id r2 -> e1 = e2).

(** A row as the handlers make and keep it: one of the two statuses, a
    real token, both subscription dates, and no name. *)
Definition reconciled (row : Usuario) : Prop :=
  (status row = "ativo" \/ status row = "inativo") /\
  (exists k, api_key row = Some k /\ str_empty k = false) /\
  is_Some (data_assinatura row) /\
  is_Some (data_renovacao row) /\
  nome row = None.

(** The columns that no handler ever rewrites. *)
Definition identity_of (row : Usuario) : Z * string * option string * datetime :=
  (id row, email row, nome row, data_criacao row).

(** What one delivery does to the table and its counter, with the
    statement that did it: nothing, the INSERT of a checkout, or one of
    the three UPDATEs on an existing row. *)
Inductive world_step (env : Env) (w w' : World) : Prop :=
  | ws_same :
      usuarios w' = usuarios w -> auto_increment w' = auto_increment w ->
      world_step env w w'
  | ws_insert now e customerId planName :
      usuarios w !! e = None ->
      usuarios w' =
      <[e := mkUsuario (auto_increment w) e None customerId "ativo" planName
               (Some (next_key env w)) now (Some now)
               (Some (DATE_ADD now 3 MONTH)) None]> (usuarios w) ->
      auto_increment w' = (auto_increment w + 1)%Z ->
      world_step env w w'
  | ws_checkout now e row customerId planName :
      usuarios w !! e = Some row ->
      usuarios w' =
      <[e := Sql.SET_checkout now customerId planName (key_for env w row) row]>
        (usuarios w) ->
      auto_increment w' = auto_increment w ->
      world_step env w w'
  | ws_invoice now e row planName intervalClause :
      usuarios w !! e = Some row ->
      usuarios w' =
      <[e := Sql.SET_invoice now planName intervalClause row]> (usuarios w) ->
      auto_increment w' = auto_increment w ->
      world_step env w w'
  | ws_canceled now e row :
      usuarios w !! e = Some row ->
      usuarios w' = <[e := Sql.SET_canceled now row]> (usuarios w) ->
      auto_increment w' = auto_increment w ->
      world_step env w w'.

(** ** Environments in which something fails *)

Module Faulty.

Definition with_db_fault (fault : nat -> option string) (env : Env) : Env :=
  {| entropy := entropy env;
     db_fault := fault;
     STRIPE_WEBHOOK_SECRET := STRIPE_WEBHOOK_SECRET env;
     constructEvent := constructEvent env;
     subscriptions_retrieve := subscriptions_retrieve env;
     customers_retrieve := customers_retrieve env;
     customers_list := customers_list env;
     stripe_create := stripe_create env |}.

Definition with_subscriptions (retrieve : string -> Subscription + string)
    (env : Env) : Env :=
  {| entropy := entropy env;
     db_fault := db_fault env;
     STRIPE_WEBHOOK_SECRET := STRIPE_WEBHOOK_SECRET env;
     constructEvent := constructEvent env;
     subscriptions_retrieve := retrieve;
     customers_retrieve := customers_retrieve env;
     customers_list := customers_list env;
     stripe_create := stripe_create env |}.

Definition with_customers_list (list : jsval -> list Customer + string)
    (env : Env) : Env :=
  {| entropy := entropy env;
     db_fault := db_fault env;
     STRIPE_WEBHOOK_SECRET := STRIPE_WEBHOOK_SECRET env;
     constructEvent := constructEvent env;
     subscriptions_retrieve := subscriptions_retrieve env;
     customers_retrieve := customers_retrieve env;
     customers_list := list;
     stripe_create := stripe_create env |}.

Definition with_stripe_create (create : StripeCreate -> string + string)
    (env : Env) : Env :=
  {| entropy := entropy env;
     db_fault := db_fault env;
     STRIPE_WEBHOOK_SECRET := STRIPE_WEBHOOK_SECRET env;
     constructEvent := constructEvent env;
     subscriptions_retrieve := subscriptions_retrieve env;
     customers_retrieve := customers_retrieve env;
     customers_list := customers_list env;
     stripe_create := create |}.

(** The database refuses every query. *)
Definition db_down : Env :=
  with_db_fault (fun _ => Some "connect ECONNREFUSED") Sample.env.

(** The second query of the process fails, the others succeed. *)
Definition write_fails : Env :=
  with_db_fault
    (fun n => if Nat.eqb n 1 then Some "Lock wait timeout exceeded" else None)
    Sample.env.

(** Stripe knows no subscription. *)
Definition no_subscription : Env :=
  with_subscriptions (fun sid => inr ("No such subscription: " +:+ sid))
    Sample.env.

(** Stripe answers with a subscription without items. *)
Definition no_items : Env :=
  with_subscriptions (fun _ => inl {| items_data := [] |}) Sample.env.

(** Stripe already has a customer for every email. *)
Definition known_customer : Env :=
  with_customers_list
    (fun _ => inl [ {| customer_id := "cus_9"; customer_email := Some "a@x.com" |} ])
    Sample.env.

(** Stripe refuses to create prices. *)
Definition no_prices : Env :=
  with_stripe_create
    (fun c =>
       match c with
       | CreatePrice _ _ _ _ _ => inr "Invalid currency"
       | _ => stripe_create Sample.env c
       end)
    Sample.env.

End Faulty.

(** The email whose row a delivery may write: the email of the checkout
    session, or the email of the Stripe customer of the invoice or of the
    canceled subscription; none for the other event types. *)
Definition event_target (env : Env) (event : Event) : option string :=
  if bool_decide (event_type event = "checkout.session.completed") then
    as_truthy (session_email (data_object event))
  else if bool_decide (event_type event = "invoice.paid") then
    fst <$> invoice_target env (data_object event)
  else if bool_decide (event_type event = "customer.subscription.deleted") then
    canceled_target env (data_object event)
  else None.

(** Every row of the table is [reconciled]. *)
Definition all_reconciled (w : World) : Prop :=
  forall e row, usuarios w !! e = Some row -> reconciled row.

(** * Properties *)

(** ** Primitive steps *)

Lemma next_key_nonempty env w : str_empty (next_key env w) = false.
Proof. reflexivity. Qed.

Lemma generateApiKey_run env w :
  generateApiKey env w =
  (Ok (next_key env w),
   mkWorld (usuarios w) (auto_increment w) (console w) (S (draws w))
     (queries w) (stripe_requests w)).
Proof. reflexivity. Qed.

Lemma as_truthy_Some v s :
  as_truthy v = Some s -> v = Some s /\ str_empty s = false.
Proof.
  destruct v as [x|]; simpl; [|discriminate].
  destruct (str_empty x) eqn:E; [discriminate|].
  intros [= ->]. auto.
Qed.

Lemma as_truthy_nonempty k : str_empty k = false -> as_truthy (Some k) = Some k.
Proof. intros H. simpl. by rewrite H. Qed.

Lemma key_for_stored env w row k :
  api_key row = Some k -> str_empty k = false -> key_for env w row = k.
Proof. intros Hk Hne. unfold key_for. by rewrite Hk, as_truthy_nonempty. Qed.

Lemma key_for_nonempty env w row : str_empty (key_for env w row) = false.
Proof.
  unfold key_for. destruct (as_truthy (api_key row)) eqn:E.
  - by apply as_truthy_Some in E as [_ ?].
  - apply next_key_nonempty.
Qed.

Lemma try_catch_Ok {A} (c : M A) h w a w' :
  c w = (Ok a, w') -> try_catch c h w = (Ok a, w').
Proof. intros H. unfold try_catch. by rewrite H. Qed.

(** Entering the [try] block of a handler once its guards are known. *)
Ltac enter_checkout session He :=
  unfold handleCheckoutSessionCompleted, try_catch, checkout_try;
  fold (session_email session); fold (session_plan session); rewrite He;
  unfold bind, pool_query, Sql.SELECT_by_email; cbn.

Ltac enter_invoice Hs Hc :=
  unfold handleInvoicePaid, try_catch, invoice_try;
  rewrite Hs, Hc; unfold bind, lift.

Ltac enter_canceled Hc :=
  unfold handleSubscriptionCanceled, try_catch, canceled_try;
  rewrite Hc; unfold bind, lift.

(** ** [handleCheckoutSessionCompleted] *)

Lemma checkout_no_email env now session w :
  as_truthy (session_email session) = None ->
  handleCheckoutSessionCompleted env now session w =
  (Ok tt, add_log (Log "Email não encontrado na sessão de checkout") w).
Proof.
  intros He. unfold handleCheckoutSessionCompleted, try_catch, checkout_try.
  fold (session_email session). by rewrite He.
Qed.

Lemma checkout_insert env now session w e :
  as_truthy (session_email session) = Some e ->
  db_fault env (queries w) = None ->
  db_fault env (S (queries w)) = None ->
  usuarios w !! e = None ->
  handleCheckoutSessionCompleted env now session w =
  (Ok tt,
   mkWorld
     (<[e := mkUsuario (auto_increment w) e None (customer session) "ativo"
              (session_plan session) (Some (next_key env w)) now (Some now)
              (Some (DATE_ADD now 3 MONTH)) None]> (usuarios w))
     (auto_increment w + 1)
     (console w
        ++ [Log ("Usuário " +:+ e +:+ " processado com sucesso após checkout")])
     (S (draws w)) (S (S (queries w))) (stripe_requests w)).
Proof.
  intros He Hq1 Hq2 Hrow. enter_checkout session He.
  rewrite Hq1, Hrow. cbn. rewrite generateApiKey_run. cbn. rewrite Hq2.
  unfold Sql.INSERT_usuario. cbn. by rewrite Hrow.
Qed.

Lemma checkout_update env now session w e row :
  as_truthy (session_email session) = Some e ->
  db_fault env (queries w) = None ->
  db_fault env (S (queries w)) = None ->
  usuarios w !! e = Some row ->
  handleCheckoutSessionCompleted env now session w =
  (Ok tt,
   mkWorld
     (alter (Sql.SET_checkout now (customer session) (session_plan session)
               (key_for env w row)) e (usuarios w))
     (auto_increment w)
     (console w
        ++ [Log ("Usuário " +:+ e +:+ " processado com sucesso após checkout")])
     (match as_truthy (api_key row) with
      | Some _ => draws w
      | None => S (draws w)
      end)
     (S (S (queries w))) (stripe_requests w)).
Proof.
  intros He Hq1 Hq2 Hrow. enter_checkout session He.
  rewrite Hq1, Hrow. cbn. unfold key_for.
  destruct (as_truthy (api_key row)) as [k|]; cbn;
    rewrite ?generateApiKey_run; cbn; by rewrite Hq2.
Qed.

(** Whatever happens (faults included), the table after a checkout is the
    table before, or one INSERT, or one UPDATE of the row of the email. *)
Lemma checkout_table env now session w :
  usuarios (snd (handleCheckoutSessionCompleted env now session w)) = usuarios w \/
  exists e,
    as_truthy (session_email session) = Some e /\
    ((usuarios w !! e = None /\
      usuarios (snd (handleCheckoutSessionCompleted env now session w)) =
      <[e := mkUsuario (auto_increment w) e None (customer session) "ativo"
               (session_plan session) (Some (next_key env w)) now (Some now)
               (Some (DATE_ADD now 3 MONTH)) None]> (usuarios w)) \/
     (exists row,
        usuarios w !! e = Some row /\
        usuarios (snd (handleCheckoutSessionCompleted env now session w)) =
        alter (Sql.SET_checkout now (customer session) (session_plan session)
                 (key_for env w row)) e (usuarios w))).
Proof.
  destruct (as_truthy (session_email session)) as [e|] eqn:He;
    [|left; by rewrite checkout_no_email].
  destruct (db_fault env (queries w)) eqn:Hq1.
  { left. enter_checkout session He. by rewrite Hq1. }
  destruct (db_fault env (S (queries w))) eqn:Hq2.
  { left. enter_checkout session He. rewrite Hq1.
    destruct (usuarios w !! e) as [row|]; cbn;
      [destruct (as_truthy (api_key row)); cbn|];
      rewrite ?generateApiKey_run; cbn; by rewrite Hq2. }
  right. exists e. split; [done|].
  destruct (usuarios w !! e) as [row|] eqn:Hrow.
  - right. exists row. split; [done|]. by erewrite checkout_update.
  - left. split; [done|]. by erewrite checkout_insert.
Qed.

Lemma checkout_try_Ok env now session w w1 e :
  checkout_try env now session w = (Ok tt, w1) ->
  as_truthy (session_email session) = Some e ->
  db_fault env (queries w) = None /\ db_fault env (S (queries w)) = None.
Proof.
  unfold checkout_try. fold (session_email session). intros H He.
  rewrite He in H. revert H.
  unfold bind, pool_query, Sql.SELECT_by_email. cbn.
  destruct (db_fault env (queries w)) eqn:Hq1; [discriminate|].
  destruct (usuarios w !! e) as [row|]; cbn;
    [destruct (as_truthy (api_key row)); cbn|];
    rewrite ?generateApiKey_run; cbn;
    (destruct (db_fault env (S (queries w))) eqn:Hq2; [discriminate|done]).
Qed.

(** After a checkout that raised no exception the row of the email holds
    the values of the event and a non-empty token. *)
Lemma checkout_try_row env now session w w1 e :
  checkout_try env now session w = (Ok tt, w1) ->
  as_truthy (session_email session) = Some e ->
  exists r k,
    usuarios w1 !! e = Some r /\
    stripe_customer_id r = customer session /\
    status r = "ativo" /\
    plano r = session_plan session /\
    api_key r = Some k /\ str_empty k = false.
Proof.
  intros Hrun He.
  destruct (checkout_try_Ok _ _ _ _ _ _ Hrun He) as [Hq1 Hq2].
  apply (try_catch_Ok _
           (fun error => console_error "Erro ao processar checkout:" error))
    in Hrun.
  change (handleCheckoutSessionCompleted env now session w = (Ok tt, w1)) in Hrun.
  destruct (usuarios w !! e) as [row|] eqn:Hrow.
  - rewrite (checkout_update _ _ _ _ _ _ He Hq1 Hq2 Hrow) in Hrun.
    injection Hrun as <-. cbn.
    exists (Sql.SET_checkout now (customer session) (session_plan session)
              (key_for env w row) row), (key_for env w row).
    rewrite lookup_alter_eq, Hrow. cbn.
    repeat split; try done. apply key_for_nonempty.
  - rewrite (checkout_insert _ _ _ _ _ He Hq1 Hq2 Hrow) in Hrun.
    injection Hrun as <-. cbn. eexists _, (next_key env w).
    rewrite lookup_insert_eq. repeat split; try done.
Qed.

(** ** [handleInvoicePaid] *)

Lemma invoice_noop env now invoice w :
  as_truthy (subscription invoice) = None \/ as_truthy (customer invoice) = None ->
  handleInvoicePaid env now invoice w = (Ok tt, w).
Proof.
  unfold handleInvoicePaid, try_catch, invoice_try.
  intros [H|H]; rewrite H; [done|].
  by destruct (as_truthy (subscription invoice)).
Qed.

Lemma invoice_update env now invoice w subscriptionId customerId sub cust plan :
  as_truthy (subscription invoice) = Some subscriptionId ->
  as_truthy (customer invoice) = Some customerId ->
  subscriptions_retrieve env subscriptionId = inl sub ->
  customers_retrieve env customerId = inl cust ->
  first_plan sub = Some plan ->
  db_fault env (queries w) = None ->
  handleInvoicePaid env now invoice w =
  (Ok tt,
   mkWorld
     (match customer_email cust with
      | Some e =>
          alter (Sql.SET_invoice now (fst (plan_of_interval plan))
                   (snd (plan_of_interval plan))) e (usuarios w)
      | None => usuarios w
      end)
     (auto_increment w)
     (console w
        ++ [Log ("Usuário " +:+ show_str (customer_email cust)
                   +:+ " atualizado após pagamento da fatura")])
     (draws w) (S (queries w)) (stripe_requests w)).
Proof.
  intros Hs Hc Hsub Hcust Hplan Hq.
  enter_invoice Hs Hc. rewrite Hsub, Hcust. cbn.
  unfold first_plan in Hplan.
  destruct (items_data sub) as [|item rest]; [discriminate|].
  rewrite Hplan. cbn.
  destruct (plan_of_interval plan) as [planName intervalClause]. cbn.
  unfold pool_query. rewrite Hq. unfold Sql.UPDATE_where_email.
  by destruct (customer_email cust).
Qed.

Lemma invoice_table env now invoice w :
  usuarios (snd (handleInvoicePaid env now invoice w)) = usuarios w \/
  exists e plan,
    invoice_target env invoice = Some (e, plan) /\
    usuarios (snd (handleInvoicePaid env now invoice w)) =
    alter (Sql.SET_invoice now (fst (plan_of_interval plan))
             (snd (plan_of_interval plan))) e (usuarios w).
Proof.
  unfold invoice_target.
  destruct (as_truthy (subscription invoice)) as [sid|] eqn:Hs;
    [|left; rewrite invoice_noop; auto].
  destruct (as_truthy (customer invoice)) as [cid|] eqn:Hc;
    [|left; rewrite invoice_noop; auto].
  destruct (subscriptions_retrieve env sid) as [sub|err] eqn:Hsub.
  2:{ left. enter_invoice Hs Hc. by rewrite Hsub. }
  destruct (customers_retrieve env cid) as [cust|err] eqn:Hcust.
  2:{ left. enter_invoice Hs Hc. by rewrite Hsub, Hcust. }
  destruct (first_plan sub) as [plan|] eqn:Hplan.
  2:{ left. enter_invoice Hs Hc. rewrite Hsub, Hcust. cbn.
      unfold first_plan in Hplan.
      destruct (items_data sub) as [|item rest]; [done|]. by rewrite Hplan. }
  destruct (db_fault env (queries w)) eqn:Hq.
  { left. enter_invoice Hs Hc. rewrite Hsub, Hcust. cbn.
    unfold first_plan in Hplan.
    destruct (items_data sub) as [|item rest]; [done|]. rewrite Hplan. cbn.
    destruct (plan_of_interval plan). cbn. unfold pool_query. by rewrite Hq. }
  rewrite (invoice_update _ _ _ _ _ _ _ _ _ Hs Hc Hsub Hcust Hplan Hq). cbn.
  destruct (customer_email cust) as [e|]; [|by left].
  right. by exists e, plan.
Qed.

Lemma invoice_try_Ok env now invoice w w1 :
  invoice_try env now invoice w = (Ok tt, w1) ->
  usuarios w1 =
  match invoice_target env invoice with
  | Some (e, plan) =>
      alter (Sql.SET_invoice now (fst (plan_of_interval plan))
               (snd (plan_of_interval plan))) e (usuarios w)
  | None => usuarios w
  end.
Proof.
  unfold invoice_target, invoice_try.
  destruct (as_truthy (subscription invoice)) as [sid|] eqn:Hs;
    [|by intros [= <-]].
  destruct (as_truthy (customer invoice)) as [cid|] eqn:Hc;
    [|by intros [= <-]].
  unfold bind, lift.
  destruct (subscriptions_retrieve env sid) as [sub|err] eqn:Hsub;
    [|discriminate].
  destruct (customers_retrieve env cid) as [cust|err] eqn:Hcust;
    [|discriminate].
  cbn. unfold first_plan.
  destruct (items_data sub) as [|item rest]; [discriminate|].
  destruct (item_plan item) as [plan|]; [|discriminate]. cbn.
  destruct (plan_of_interval plan) as [planName intervalClause] eqn:Hp. cbn.
  unfold pool_query.
  destruct (db_fault env (queries w)); [discriminate|].
  unfold Sql.UPDATE_where_email.
  destruct (customer_email cust) as [e|]; cbn; unfold console_log;
    intros [= <-]; cbn; by rewrite ?Hp.
Qed.

(** ** [handleSubscriptionCanceled] *)

Lemma canceled_noop env now sub w :
  as_truthy (customer sub) = None ->
  handleSubscriptionCanceled env now sub w = (Ok tt, w).
Proof.
  intros H. unfold handleSubscriptionCanceled, try_catch, canceled_try.
  by rewrite H.
Qed.

Lemma canceled_update env now sub w customerId cust :
  as_truthy (customer sub) = Some customerId ->
  customers_retrieve env customerId = inl cust ->
  db_fault env (queries w) = None ->
  handleSubscriptionCanceled env now sub w =
  (Ok tt,
   mkWorld
     (match customer_email cust with
      | Some e => alter (Sql.SET_canceled now) e (usuarios w)
      | None => usuarios w
      end)
     (auto_increment w)
     (console w
        ++ [Log ("Assinatura do usuário " +:+ show_str (customer_email cust)
                   +:+ " cancelada")])
     (draws w) (S (queries w)) (stripe_requests w)).
Proof.
  intros Hc Hcust Hq.
  enter_canceled Hc. rewrite Hcust. cbn.
  unfold pool_query. rewrite Hq. unfold Sql.UPDATE_where_email.
  by destruct (customer_email cust).
Qed.

Lemma canceled_table env now sub w :
  usuarios (snd (handleSubscriptionCanceled env now sub w)) = usuarios w \/
  exists e,
    canceled_target env sub = Some e /\
    usuarios (snd (handleSubscriptionCanceled env now sub w)) =
    alter (Sql.SET_canceled now) e (usuarios w).
Proof.
  unfold canceled_target.
  destruct (as_truthy (customer sub)) as [cid|] eqn:Hc;
    [|left; by rewrite canceled_noop].
  destruct (customers_retrieve env cid) as [cust|err] eqn:Hcust.
  2:{ left. enter_canceled Hc. by rewrite Hcust. }
  destruct (db_fault env (queries w)) eqn:Hq.
  { left. enter_canceled Hc. rewrite Hcust. cbn.
    unfold pool_query. by rewrite Hq. }
  rewrite (canceled_update _ _ _ _ _ _ Hc Hcust Hq). cbn.
  destruct (customer_email cust) as [e|]; [|by left].
  right. by exists e.
Qed.

Lemma canceled_try_Ok env now sub w w1 :
  canceled_try env now sub w = (Ok tt, w1) ->
  usuarios w1 =
  match canceled_target env sub with
  | Some e => alter (Sql.SET_canceled now) e (usuarios w)
  | None => usuarios w
  end.
Proof.
  unfold canceled_target, canceled_try.
  destruct (as_truthy (customer sub)) as [cid|] eqn:Hc; [|by intros [= <-]].
  unfold bind, lift.
  destruct (customers_retrieve env cid) as [cust|err] eqn:Hcust;
    [|discriminate].
  cbn. unfold pool_query.
  destruct (db_fault env (queries w)); [discriminate|].
  unfold Sql.UPDATE_where_email.
  destruct (customer_email cust) as [e|]; cbn; unfold console_log;
    by intros [= <-].
Qed.

(** An UPDATE creates no row. *)
Lemma alter_creates_nothing (f : Usuario -> Usuario) (e e' : string)
    (t : gmap string Usuario) :
  t !! e' = None -> alter f e t !! e' = None.
Proof.
  intros H. destruct (decide (e = e')) as [->|Hne].
  - by rewrite lookup_alter_eq, H.
  - by rewrite lookup_alter_ne.
Qed.

(** ** The claims *)

(** C1. CheckoutCompleted. Without a (non-empty) email the handler logs
    one line and changes nothing else. With an email for which there is
    no row, and no failing query, the table gains exactly one row: status
    [ativo], the plan label and customer id of the event, the token that
    the issuer hands out at this draw, [data_assinatura = now] and
    [data_renovacao = now + 3 months]. With an email that has a row, that
    row is rewritten to status [ativo], [data_assinatura = now],
    [data_renovacao = now + 3 months], and a token that was set (truthy)
    is kept. *)
Theorem checkout_completed_spec env now session w :
  (as_truthy (session_email session) = None ->
   handleCheckoutSessionCompleted env now session w =
   (Ok tt, add_log (Log "Email não encontrado na sessão de checkout") w)) /\
  (forall e,
     as_truthy (session_email session) = Some e ->
     db_fault env (queries w) = None ->
     db_fault env (S (queries w)) = None ->
     let w' := snd (handleCheckoutSessionCompleted env now session w) in
     match usuarios w !! e with
     | None =>
         fst (generateApiKey env w) = Ok (next_key env w) /\
         usuarios w' =
         <[e := mkUsuario (auto_increment w) e None (customer session) "ativo"
                  (session_plan session) (Some (next_key env w)) now
                  (Some now) (Some (DATE_ADD now 3 MONTH)) None]> (usuarios w)
     | Some row =>
         exists row',
           usuarios w' = <[e := row']> (usuarios w) /\
           status row' = "ativo" /\
           data_assinatura row' = Some now /\
           data_renovacao row' = Some (DATE_ADD now 3 MONTH) /\
           stripe_customer_id row' = customer session /\
           plano row' = session_plan session /\
           (forall k, as_truthy (api_key row) = Some k -> api_key row' = Some k)
     end).
Proof.
  split; [apply checkout_no_email|].
  intros e He Hq1 Hq2 w'. subst w'.
  destruct (usuarios w !! e) as [row|] eqn:Hrow.
  - rewrite (checkout_update _ _ _ _ _ _ He Hq1 Hq2 Hrow). cbn.
    exists (Sql.SET_checkout now (customer session) (session_plan session)
              (key_for env w row) row).
    split.
    { apply map_eq. intros i. destruct (decide (e = i)) as [<-|Hne].
      - by rewrite lookup_alter_eq, lookup_insert_eq, Hrow.
      - by rewrite lookup_alter_ne, lookup_insert_ne. }
    cbn. repeat split; try done.
    intros k Hk. unfold key_for. by rewrite Hk.
  - rewrite (checkout_insert _ _ _ _ _ He Hq1 Hq2 Hrow). by cbn.
Qed.

Lemma checkout_completed_spec_witness :
  (exists row',
     usuarios (snd (handleCheckoutSessionCompleted Sample.env Sample.t0
                      Sample.checkout_session Sample.one_row))
     = <["a@x.com" := row']> (usuarios Sample.one_row) /\
     status row' = "ativo" /\
     api_key row' = Some "tok") /\
  usuarios (snd (handleCheckoutSessionCompleted Sample.env Sample.t0
                   Sample.checkout_session Sample.empty_world))
  = {[ "a@x.com" :=
         mkUsuario 1 "a@x.com" None (Some "cus_1") "ativo" (Some "Plano Anual")
           (Some "AAECAwQFBgcICQoLDA0ODxAREhMUFRYXGBkaGxwdHh8") Sample.t0
           (Some Sample.t0) (Some (DateTime 2024 4 15 43200)) None ]} /\
  handleCheckoutSessionCompleted Sample.env Sample.t0 Sample.anonymous_session
    Sample.empty_world =
  (Ok tt,
   add_log (Log "Email não encontrado na sessão de checkout")
     Sample.empty_world).
Proof.
  destruct (checkout_completed_spec Sample.env Sample.t0
              Sample.checkout_session Sample.one_row) as [_ Hrow].
  destruct (checkout_completed_spec Sample.env Sample.t0
              Sample.checkout_session Sample.empty_world) as [_ Hnew].
  destruct (checkout_completed_spec Sample.env Sample.t0
              Sample.anonymous_session Sample.empty_world) as [Hnone _].
  split; [|split; [|apply Hnone; reflexivity]].
  2:{ specialize (Hnew "a@x.com" eq_refl eq_refl eq_refl).
      destruct Hnew as [_ Htable]. exact Htable. }
  specialize (Hrow "a@x.com" eq_refl eq_refl eq_refl).
  destruct Hrow as (row' & Htable & Hstatus & _ & _ & _ & _ & Hkey).
  exists row'. repeat split; [exact Htable|exact Hstatus|].
  apply Hkey. reflexivity.
Defined.

(** C10. A checkout session without a metadata object writes the plan
    label [desconhecido], whether the row is created or updated. *)
Theorem checkout_without_metadata env now session w e :
  metadata session = None ->
  as_truthy (session_email session) = Some e ->
  db_fault env (queries w) = None ->
  db_fault env (S (queries w)) = None ->
  exists row',
    usuarios (snd (handleCheckoutSessionCompleted env now session w)) !! e
    = Some row' /\
    plano row' = Some "desconhecido".
Proof.
  intros Hmeta He Hq1 Hq2.
  assert (Hplan : session_plan session = Some "desconhecido")
    by (unfold session_plan; by rewrite Hmeta).
  destruct (usuarios w !! e) as [row|] eqn:Hrow.
  - rewrite (checkout_update _ _ _ _ _ _ He Hq1 Hq2 Hrow). cbn.
    rewrite lookup_alter_eq, Hrow. cbn. eauto.
  - rewrite (checkout_insert _ _ _ _ _ He Hq1 Hq2 Hrow). cbn.
    rewrite lookup_insert_eq. eauto.
Qed.

Lemma checkout_without_metadata_witness :
  (exists row',
     usuarios (snd (handleCheckoutSessionCompleted Sample.env Sample.t0
                      Sample.bare_session Sample.empty_world)) !! "a@x.com"
     = Some row' /\
     plano row' = Some "desconhecido") /\
  (exists row',
     usuarios (snd (handleCheckoutSessionCompleted Sample.env Sample.t0
                      Sample.bare_session Sample.one_row)) !! "a@x.com"
     = Some row' /\
     plano row' = Some "desconhecido").
Proof.
  split;
    apply (checkout_without_metadata Sample.env Sample.t0 Sample.bare_session);
    reflexivity.
Defined.

Lemma plan_of_interval_year plan :
  interval plan = "year" -> plan_of_interval plan = ("Plano Anual", (1%Z, YEAR)).
Proof. intros Hy. unfold plan_of_interval. by rewrite bool_decide_eq_true_2. Qed.

Lemma plan_of_interval_quarter plan :
  interval plan = "month" -> interval_count plan = 3%Z ->
  plan_of_interval plan = ("Plano Trimestral", (3%Z, MONTH)).
Proof.
  intros Hm Hc. unfold plan_of_interval.
  rewrite bool_decide_eq_false_2 by congruence.
  rewrite bool_decide_eq_true_2 by done. by rewrite Hc.
Qed.

Lemma plan_of_interval_other plan :
  interval plan <> "year" ->
  ~ (interval plan = "month" /\ interval_count plan = 3%Z) ->
  plan_of_interval plan = ("Plano Personalizado", (1%Z, MONTH)).
Proof.
  intros Hy Hq. unfold plan_of_interval.
  rewrite bool_decide_eq_false_2 by done.
  case_bool_decide as Hm; [|done].
  destruct (interval_count plan =? 3)%Z eqn:Hc; [|done].
  apply Z.eqb_eq in Hc. tauto.
Qed.

(** C2 (as amended). The plan resolution of [handleInvoicePaid]: interval
    [year], whatever the count, gives [Plano Anual] renewed one year from
    now; [month] with count 3 gives [Plano Trimestral] renewed three
    months from now; everything else, [month]/1 included, gives
    [Plano Personalizado] renewed one month from now. *)
Theorem invoice_plan_table (plan : Plan) (from : datetime) :
  (interval plan = "year" ->
   fst (plan_of_interval plan) = "Plano Anual" /\
   renewalRule plan from = DATE_ADD from 1 YEAR) /\
  (interval plan = "month" -> interval_count plan = 3%Z ->
   fst (plan_of_interval plan) = "Plano Trimestral" /\
   renewalRule plan from = DATE_ADD from 3 MONTH) /\
  (interval plan <> "year" ->
   ~ (interval plan = "month" /\ interval_count plan = 3%Z) ->
   fst (plan_of_interval plan) = "Plano Personalizado" /\
   renewalRule plan from = DATE_ADD from 1 MONTH).
Proof.
  unfold renewalRule. split; [|split].
  - intros Hy. by rewrite (plan_of_interval_year _ Hy).
  - intros Hm Hc. by rewrite (plan_of_interval_quarter _ Hm Hc).
  - intros Hy Hq. by rewrite (plan_of_interval_other _ Hy Hq).
Qed.

Lemma invoice_plan_table_witness :
  (fst (plan_of_interval {| interval := "year"; interval_count := 1 |})
   = "Plano Anual" /\
   renewalRule {| interval := "year"; interval_count := 1 |} Sample.t0
   = DateTime 2025 1 15 43200) /\
  (fst (plan_of_interval {| interval := "month"; interval_count := 3 |})
   = "Plano Trimestral" /\
   renewalRule {| interval := "month"; interval_count := 3 |} Sample.t0
   = DateTime 2024 4 15 43200) /\
  (fst (plan_of_interval Sample.half_year) = "Plano Personalizado" /\
   renewalRule Sample.half_year Sample.t0 = DateTime 2024 2 15 43200).
Proof.
  split; [|split].
  - apply (invoice_plan_table {| interval := "year"; interval_count := 1 |}
             Sample.t0). reflexivity.
  - apply (invoice_plan_table {| interval := "month"; interval_count := 3 |}
             Sample.t0); reflexivity.
  - apply (invoice_plan_table Sample.half_year Sample.t0).
    + discriminate.
    + intros [_ H]. discriminate H.
Defined.

(** C2 as the specification states it fails for a six-month plan paid on
    15 January 2024: the specification renews it on 15 July, the code on
    15 February. It fails as well for a two-year plan, which the code
    names [Plano Anual] and renews after one year. *)
Lemma invoice_plan_table_counterexample :
  (spec_renewal Sample.half_year Sample.t0 = Some (DateTime 2024 7 15 43200) /\
   renewalRule Sample.half_year Sample.t0 = DateTime 2024 2 15 43200 /\
   Some (renewalRule Sample.half_year Sample.t0)
   <> spec_renewal Sample.half_year Sample.t0) /\
  (spec_renewal Sample.two_years Sample.t0 = Some (DateTime 2026 1 15 43200) /\
   plan_of_interval Sample.two_years = ("Plano Anual", (1%Z, YEAR)) /\
   renewalRule Sample.two_years Sample.t0 = DateTime 2025 1 15 43200).
Proof. repeat split. discriminate. Qed.

Lemma alter_as_insert (f : Usuario -> Usuario) (e : string) (row : Usuario)
    (t : gmap string Usuario) :
  t !! e = Some row -> alter f e t = <[e := f row]> t.
Proof.
  intros Hrow. apply map_eq. intros i. destruct (decide (e = i)) as [<-|Hne].
  - by rewrite lookup_alter_eq, lookup_insert_eq, Hrow.
  - by rewrite lookup_alter_ne, lookup_insert_ne.
Qed.

Lemma alter_missing (f : Usuario -> Usuario) (e : string)
    (t : gmap string Usuario) :
  t !! e = None -> alter f e t = t.
Proof.
  intros Hrow. apply map_eq. intros i. destruct (decide (e = i)) as [<-|Hne].
  - by rewrite lookup_alter_eq, Hrow.
  - by rewrite lookup_alter_ne.
Qed.

Lemma reports_error_one_log w t a d q s msg :
  reports_error w (mkWorld t a (console w ++ [Log msg]) d q s) = false.
Proof. unfold reports_error, logged. cbn. by rewrite drop_app_length. Qed.

(** C5 (as amended). InvoicePaid. Without a subscription id or a customer
    id the handler does nothing. Otherwise, when both Stripe lookups
    answer, the customer has email [e] and the query does not fail: an
    existing row of [e] is rewritten to status [ativo], the resolved plan
    name, [data_renovacao] = the renewal rule of the plan at [now] and
    [data_modificacao = now]; when [e] has no row the UPDATE matches
    nothing, so no row is created, and the handler reports no error (it
    ends normally and logs only its usual line). *)
Theorem invoice_paid_spec env now invoice w :
  (as_truthy (subscription invoice) = None \/
   as_truthy (customer invoice) = None ->
   handleInvoicePaid env now invoice w = (Ok tt, w)) /\
  (forall subscriptionId customerId sub cust plan e,
     as_truthy (subscription invoice) = Some subscriptionId ->
     as_truthy (customer invoice) = Some customerId ->
     subscriptions_retrieve env subscriptionId = inl sub ->
     customers_retrieve env customerId = inl cust ->
     first_plan sub = Some plan ->
     customer_email cust = Some e ->
     db_fault env (queries w) = None ->
     let w' := snd (handleInvoicePaid env now invoice w) in
     match usuarios w !! e with
     | Some row =>
         exists row',
           usuarios w' = <[e := row']> (usuarios w) /\
           status row' = "ativo" /\
           plano row' = Some (fst (plan_of_interval plan)) /\
           data_renovacao row' = Some (renewalRule plan now) /\
           data_modificacao row' = Some now
     | None =>
         usuarios w' = usuarios w /\
         fst (handleInvoicePaid env now invoice w) = Ok tt /\
         reports_error w w' = false
     end).
Proof.
  split; [apply invoice_noop|].
  intros sid cid sub cust plan e Hs Hc Hsub Hcust Hplan He Hq w'. subst w'.
  rewrite (invoice_update _ _ _ _ _ _ _ _ _ Hs Hc Hsub Hcust Hplan Hq).
  rewrite He. cbn.
  destruct (usuarios w !! e) as [row|] eqn:Hrow.
  - eexists. split; [by apply alter_as_insert|]. by cbn.
  - split; [by apply alter_missing|]. split; [done|].
    apply reports_error_one_log.
Qed.

Lemma invoice_paid_spec_witness :
  (exists row',
     usuarios (snd (handleInvoicePaid Sample.env Sample.t1 Sample.invoice
                      Sample.one_row))
     = <["a@x.com" := row']> (usuarios Sample.one_row) /\
     status row' = "ativo" /\
     plano row' = Some "Plano Anual" /\
     data_renovacao row' = Some (DateTime 2025 3 31 0) /\
     data_modificacao row' = Some Sample.t1) /\
  handleInvoicePaid Sample.env Sample.t1 Sample.no_customer Sample.one_row
  = (Ok tt, Sample.one_row).
Proof.
  destruct (invoice_paid_spec Sample.env Sample.t1 Sample.invoice
              Sample.one_row) as [_ Hrow].
  destruct (invoice_paid_spec Sample.env Sample.t1 Sample.no_customer
              Sample.one_row) as [Hnone _].
  split; [|apply Hnone; right; reflexivity].
  exact (Hrow "sub_1" "cus_1" _ _ _ "a@x.com" eq_refl eq_refl eq_refl eq_refl
           eq_refl eq_refl eq_refl).
Defined.

(** C5 as the specification states it fails: an invoice paid by a
    customer whose email has no row is not reported as an error. The
    handler ends normally and the only line on the console is its usual
    success line. *)
Lemma invoice_paid_spec_counterexample :
  invoice_target Sample.env Sample.ghost_invoice
  = Some ("ghost@x.com", {| interval := "year"; interval_count := 1 |}) /\
  usuarios Sample.empty_world !! "ghost@x.com" = None /\
  handleInvoicePaid Sample.env Sample.t0 Sample.ghost_invoice Sample.empty_world
  = (Ok tt,
     mkWorld ∅ 1
       [Log "Usuário ghost@x.com atualizado após pagamento da fatura"] 0 1 []) /\
  reports_error Sample.empty_world
    (snd (handleInvoicePaid Sample.env Sample.t0 Sample.ghost_invoice
            Sample.empty_world)) = false.
Proof. repeat split. Qed.

(** C6. SubscriptionCanceled. Without a customer id the handler does
    nothing. Otherwise, when the customer lookup answers with email [e]
    and the query does not fail, an existing row of [e] gets status
    [inativo] and [data_modificacao = now] while its plan and renewal
    date (and every other column) stay as they were, and when [e] has no
    row the table is unchanged. In no case at all does the handler create
    a row. *)
Theorem subscription_canceled_spec env now sub w :
  (as_truthy (customer sub) = None ->
   handleSubscriptionCanceled env now sub w = (Ok tt, w)) /\
  (forall customerId cust e,
     as_truthy (customer sub) = Some customerId ->
     customers_retrieve env customerId = inl cust ->
     customer_email cust = Some e ->
     db_fault env (queries w) = None ->
     let w' := snd (handleSubscriptionCanceled env now sub w) in
     match usuarios w !! e with
     | Some row =>
         exists row',
           usuarios w' = <[e := row']> (usuarios w) /\
           status row' = "inativo" /\
           data_modificacao row' = Some now /\
           plano row' = plano row /\
           data_renovacao row' = data_renovacao row /\
           untimed row' =
           (id row, email row, nome row, stripe_customer_id row, "inativo",
            plano row, api_key row, data_criacao row) /\
           data_assinatura row' = data_assinatura row
     | None => usuarios w' = usuarios w
     end) /\
  (forall e,
     usuarios w !! e = None ->
     usuarios (snd (handleSubscriptionCanceled env now sub w)) !! e = None).
Proof.
  split; [apply canceled_noop|]. split.
  - intros cid cust e Hc Hcust He Hq w'. subst w'.
    rewrite (canceled_update _ _ _ _ _ _ Hc Hcust Hq). rewrite He. cbn.
    destruct (usuarios w !! e) as [row|] eqn:Hrow.
    + eexists. split; [by apply alter_as_insert|]. by cbn.
    + by apply alter_missing.
  - intros e He.
    destruct (canceled_table env now sub w) as [->|(e0 & _ & ->)]; [done|].
    by apply alter_creates_nothing.
Qed.

Lemma subscription_canceled_spec_witness :
  (exists row',
     usuarios (snd (handleSubscriptionCanceled Sample.env Sample.t1
                      Sample.invoice Sample.one_row))
     = <["a@x.com" := row']> (usuarios Sample.one_row) /\
     status row' = "inativo" /\
     data_modificacao row' = Some Sample.t1 /\
     plano row' = Some "Plano Trimestral" /\
     data_renovacao row' = None) /\
  usuarios (snd (handleSubscriptionCanceled Sample.env Sample.t1
                   Sample.invoice Sample.empty_world)) !! "a@x.com" = None /\
  handleSubscriptionCanceled Sample.env Sample.t1
    {| customer_details := None; customer := None; metadata := None;
       subscription := None |} Sample.one_row
  = (Ok tt, Sample.one_row).
Proof.
  destruct (subscription_canceled_spec Sample.env Sample.t1 Sample.invoice
              Sample.one_row) as (_ & Hrow & _).
  destruct (subscription_canceled_spec Sample.env Sample.t1 Sample.invoice
              Sample.empty_world) as (_ & _ & Hnew).
  destruct (subscription_canceled_spec Sample.env Sample.t1
              {| customer_details := None; customer := None; metadata := None;
                 subscription := None |} Sample.one_row) as (Hnone & _ & _).
  split; [|split; [apply Hnew; reflexivity|apply Hnone; reflexivity]].
  destruct (Hrow "cus_1" _ "a@x.com" eq_refl eq_refl eq_refl eq_refl)
    as (row' & Ht & Hs & Hm & Hp & Hr & _).
  exists row'. repeat split; assumption.
Defined.

(** C7 (what the code does). The update path of CheckoutCompleted
    rewrites the row of the email and leaves its [data_modificacao] as it
    was, while the UPDATE statements of the other two handlers
    ([Sql.SET_invoice], [Sql.SET_canceled]) set it to [now]. *)
Theorem checkout_update_keeps_data_modificacao env now session w e row :
  as_truthy (session_email session) = Some e ->
  db_fault env (queries w) = None ->
  db_fault env (S (queries w)) = None ->
  usuarios w !! e = Some row ->
  exists row',
    usuarios (snd (handleCheckoutSessionCompleted env now session w)) !! e
    = Some row' /\
    data_assinatura row' = Some now /\
    data_modificacao row' = data_modificacao row.
Proof.
  intros He Hq1 Hq2 Hrow.
  rewrite (checkout_update _ _ _ _ _ _ He Hq1 Hq2 Hrow). cbn.
  rewrite lookup_alter_eq, Hrow. cbn. eauto.
Qed.

Lemma checkout_update_keeps_data_modificacao_witness :
  exists row',
    usuarios (snd (handleCheckoutSessionCompleted Sample.env Sample.t0
                     Sample.checkout_session Sample.one_row)) !! "a@x.com"
    = Some row' /\
    data_assinatura row' = Some Sample.t0 /\
    data_modificacao row' = None.
Proof.
  apply (checkout_update_keeps_data_modificacao Sample.env Sample.t0
           Sample.checkout_session Sample.one_row "a@x.com" Sample.old_row);
    reflexivity.
Defined.

(** ** Histories of events *)

Lemma alter_table_step (f : Usuario -> Usuario) (e : string)
    (t : gmap string Usuario) :
  (forall row, api_key (f row) = api_key row) ->
  table_step t (alter f e t).
Proof.
  intros Hf. destruct (t !! e) as [row|] eqn:Hrow.
  - eapply step_keep; [exact Hrow|apply Hf|by apply alter_as_insert].
  - apply step_same. by apply alter_missing.
Qed.

Lemma dispatch_table_step env now event w :
  table_step (usuarios w) (usuarios (snd (dispatch env now event w))).
Proof.
  unfold dispatch. repeat case_bool_decide.
  - destruct (checkout_table env now (data_object event) w)
      as [Hsame|(e & He & [[Hnone Hins]|(row & Hrow & Hupd)])].
    + by apply step_same.
    + eapply step_insert; [exact Hnone| | |exact Hins]; [done|].
      apply next_key_nonempty.
    + rewrite (alter_as_insert _ _ _ _ Hrow) in Hupd.
      destruct (as_truthy (api_key row)) as [k|] eqn:Hk.
      * apply as_truthy_Some in Hk as [Hk Hne].
        eapply step_keep; [exact Hrow| |exact Hupd]. cbn.
        by rewrite (key_for_stored _ _ _ _ Hk Hne).
      * eapply step_issue; [exact Hrow|exact Hk| | |exact Hupd]; [done|].
        apply key_for_nonempty.
  - destruct (invoice_table env now (data_object event) w)
      as [Hsame|(e & plan & _ & ->)]; [by apply step_same|].
    by apply alter_table_step.
  - destruct (canceled_table env now (data_object event) w)
      as [Hsame|(e & _ & ->)]; [by apply step_same|].
    by apply alter_table_step.
  - by apply step_same.
Qed.

Lemma table_step_keeps_token t t' e row k :
  table_step t t' ->
  t !! e = Some row -> api_key row = Some k -> str_empty k = false ->
  exists row', t' !! e = Some row' /\ api_key row' = Some k.
Proof.
  intros Hstep Hrow Hk Hne.
  destruct Hstep as [->|e0 r0 k0 Hnone _ _ ->|e0 r0 r0' H0 Hsame ->
                    |e0 r0 r0' k0 H0 Hfalsy _ _ ->].
  - eauto.
  - rewrite lookup_insert_ne by congruence. eauto.
  - destruct (decide (e0 = e)) as [->|Hdiff].
    + rewrite lookup_insert_eq. eexists. split; [done|]. congruence.
    + rewrite lookup_insert_ne by done. eauto.
  - destruct (decide (e0 = e)) as [->|Hdiff].
    + assert (r0 = row) as -> by congruence.
      rewrite Hk, (as_truthy_nonempty _ Hne) in Hfalsy. discriminate.
    + rewrite lookup_insert_ne by done. eauto.
Qed.

Lemma table_step_tokens_nonempty t t' :
  table_step t t' -> tokens_nonempty t -> tokens_nonempty t'.
Proof.
  intros Hstep Hinv e row k.
  destruct Hstep as [->|e0 r0 k0 Hnone Hk0 Hne0 ->|e0 r0 r0' H0 Hsame ->
                    |e0 r0 r0' k0 H0 Hfalsy Hk0 Hne0 ->].
  - apply Hinv.
  - destruct (decide (e0 = e)) as [->|Hdiff].
    + rewrite lookup_insert_eq. intros [= <-] Hk. congruence.
    + rewrite lookup_insert_ne by done. apply Hinv.
  - destruct (decide (e0 = e)) as [->|Hdiff].
    + rewrite lookup_insert_eq. intros [= <-] Hk.
      apply (Hinv e r0 k H0). congruence.
    + rewrite lookup_insert_ne by done. apply Hinv.
  - destruct (decide (e0 = e)) as [->|Hdiff].
    + rewrite lookup_insert_eq. intros [= <-] Hk. congruence.
    + rewrite lookup_insert_ne by done. apply Hinv.
Qed.

Lemma replay_tokens_nonempty env deliveries w :
  tokens_nonempty (usuarios w) ->
  tokens_nonempty (usuarios (replay env deliveries w)).
Proof.
  revert w. induction deliveries as [|[now event] rest IH]; intros w Hinv.
  - exact Hinv.
  - cbn. apply IH.
    eapply table_step_tokens_nonempty; [apply dispatch_table_step|exact Hinv].
Qed.

Lemma replay_keeps_token env deliveries w e row k :
  usuarios w !! e = Some row -> api_key row = Some k -> str_empty k = false ->
  exists row',
    usuarios (replay env deliveries w) !! e = Some row' /\
    api_key row' = Some k.
Proof.
  revert w row. induction deliveries as [|[now event] rest IH];
    intros w row Hrow Hk Hne.
  - eauto.
  - cbn.
    destruct (table_step_keeps_token _ _ _ _ _
                (dispatch_table_step env now event w) Hrow Hk Hne)
      as (row1 & Hrow1 & Hk1).
    by apply (IH _ row1).
Qed.

Lemma replay_app env earlier later w :
  replay env (earlier ++ later) w = replay env later (replay env earlier w).
Proof.
  revert w. induction earlier as [|[now event] rest IH]; intros w; [done|].
  cbn. apply IH.
Qed.

(** C3. Start from a table without empty-string tokens (the empty table
    of a new installation, for one) and deliver any history of verified
    events. Whenever, at some point of the history, the row of an email
    holds a non-null token, it holds that same token after every further
    delivery: checkouts, paid invoices and anything else. *)
Theorem access_token_issued_once env w earlier later e row k :
  tokens_nonempty (usuarios w) ->
  usuarios (replay env earlier w) !! e = Some row ->
  api_key row = Some k ->
  exists row',
    usuarios (replay env (earlier ++ later) w) !! e = Some row' /\
    api_key row' = Some k.
Proof.
  intros Hinv Hrow Hk. rewrite replay_app.
  apply (replay_keeps_token env later _ e row k Hrow Hk).
  exact (replay_tokens_nonempty env earlier w Hinv e row k Hrow Hk).
Qed.

Lemma access_token_issued_once_witness :
  exists row',
    usuarios
      (replay Sample.env
         ([(Sample.t0, Sample.parse "checkout")]
            ++ [(Sample.t1, Sample.parse "checkout");
                (Sample.t1, Sample.parse "invoice");
                (Sample.t1, Sample.parse "deleted");
                (Sample.t1, Sample.parse "charge")])
         Sample.empty_world) !! "a@x.com" = Some row' /\
    api_key row' = Some "AAECAwQFBgcICQoLDA0ODxAREhMUFRYXGBkaGxwdHh8".
Proof.
  apply (access_token_issued_once Sample.env Sample.empty_world
           [(Sample.t0, Sample.parse "checkout")] _ "a@x.com"
           (mkUsuario 1 "a@x.com" None (Some "cus_1") "ativo"
              (Some "Plano Anual")
              (Some "AAECAwQFBgcICQoLDA0ODxAREhMUFRYXGBkaGxwdHh8") Sample.t0
              (Some Sample.t0) (Some (DateTime 2024 4 15 43200)) None)).
  - intros e row k H. change (usuarios Sample.empty_world) with (∅ : gmap string Usuario) in H.
    rewrite lookup_empty in H. discriminate H.
  - reflexivity.
  - reflexivity.
Defined.

(** ** Replaying one event *)

Lemma untimed_checkout_again now customerId planName k row :
  stripe_customer_id row = customerId -> status row = "ativo" ->
  plano row = planName -> api_key row = Some k ->
  untimed (Sql.SET_checkout now customerId planName k row) = untimed row.
Proof. intros <- Hs <- Hk. unfold untimed. cbn. by rewrite Hs, Hk. Qed.

Lemma checkout_replayed env now1 now2 session w w1 e :
  checkout_try env now1 session w = (Ok tt, w1) ->
  untimed <$> (usuarios (snd (handleCheckoutSessionCompleted env now2 session w1)) !! e)
  = untimed <$> (usuarios w1 !! e).
Proof.
  intros Hrun.
  destruct (as_truthy (session_email session)) as [e0|] eqn:He;
    [|by rewrite checkout_no_email].
  destruct (checkout_try_row _ _ _ _ _ _ Hrun He)
    as (r & k & Hr & Hcust & Hstatus & Hplan & Hk & Hne).
  destruct (checkout_table env now2 session w1)
    as [->|(e' & He' & [[Hnone _]|(row & Hrow & ->)])]; [done| |].
  - congruence.
  - assert (e' = e0) as -> by congruence.
    assert (row = r) as -> by congruence.
    destruct (decide (e0 = e)) as [<-|Hdiff]; [|by rewrite lookup_alter_ne].
    rewrite lookup_alter_eq, Hr. cbn. f_equal.
    rewrite (key_for_stored _ _ _ _ Hk Hne).
    by apply untimed_checkout_again.
Qed.

Lemma alter_replayed (f1 f2 : Usuario -> Usuario) (e0 e : string)
    (t : gmap string Usuario) :
  (forall row, untimed (f2 (f1 row)) = untimed (f1 row)) ->
  untimed <$> (alter f2 e0 (alter f1 e0 t) !! e)
  = untimed <$> (alter f1 e0 t !! e).
Proof.
  intros Hf. destruct (decide (e0 = e)) as [<-|Hdiff].
  - rewrite !lookup_alter_eq. destruct (t !! e0); cbn; [|done]. by rewrite Hf.
  - by rewrite !lookup_alter_ne.
Qed.

Lemma invoice_replayed env now1 now2 invoice w w1 e :
  invoice_try env now1 invoice w = (Ok tt, w1) ->
  untimed <$> (usuarios (snd (handleInvoicePaid env now2 invoice w1)) !! e)
  = untimed <$> (usuarios w1 !! e).
Proof.
  intros Hrun. apply invoice_try_Ok in Hrun.
  destruct (invoice_table env now2 invoice w1)
    as [->|(e0 & plan & Htarget & ->)]; [done|].
  rewrite Htarget in Hrun. rewrite Hrun. by apply alter_replayed.
Qed.

Lemma canceled_replayed env now1 now2 sub w w1 e :
  canceled_try env now1 sub w = (Ok tt, w1) ->
  untimed <$> (usuarios (snd (handleSubscriptionCanceled env now2 sub w1)) !! e)
  = untimed <$> (usuarios w1 !! e).
Proof.
  intros Hrun. apply canceled_try_Ok in Hrun.
  destruct (canceled_table env now2 sub w1) as [->|(e0 & Htarget & ->)]; [done|].
  rewrite Htarget in Hrun. rewrite Hrun. by apply alter_replayed.
Qed.

(** C4. Replaying a verified event. If the first delivery of an event is
    processed without an exception, a second delivery of the same event,
    at any later clock reading and whether or not it meets a fault,
    leaves every row as the first delivery left it, up to the three
    columns filled from the clock ([data_assinatura], [data_renovacao],
    [data_modificacao]). This holds for every event kind, CheckoutCompleted
    included. *)
Theorem reconciliation_idempotent env now1 now2 event w e :
  fst (dispatch_try env now1 event w) = Ok tt ->
  untimed <$>
    (usuarios (snd (dispatch env now2 event (snd (dispatch env now1 event w)))) !! e)
  = untimed <$> (usuarios (snd (dispatch env now1 event w)) !! e).
Proof.
  unfold dispatch, dispatch_try. repeat case_bool_decide.
  - destruct (checkout_try env now1 (data_object event) w) as [[[]|err] w1] eqn:Hrun;
      [|discriminate].
    intros _.
    assert (Hfirst : handleCheckoutSessionCompleted env now1 (data_object event) w = (Ok tt, w1))
      by (by apply try_catch_Ok).
    rewrite Hfirst. cbn.
    by apply (checkout_replayed env now1 now2 _ w).
  - destruct (invoice_try env now1 (data_object event) w) as [[[]|err] w1] eqn:Hrun;
      [|discriminate].
    intros _.
    assert (Hfirst : handleInvoicePaid env now1 (data_object event) w = (Ok tt, w1))
      by (by apply try_catch_Ok).
    rewrite Hfirst. cbn.
    by apply (invoice_replayed env now1 now2 _ w).
  - destruct (canceled_try env now1 (data_object event) w) as [[[]|err] w1] eqn:Hrun;
      [|discriminate].
    intros _.
    assert (Hfirst : handleSubscriptionCanceled env now1 (data_object event) w = (Ok tt, w1))
      by (by apply try_catch_Ok).
    rewrite Hfirst. cbn.
    by apply (canceled_replayed env now1 now2 _ w).
  - done.
Qed.

Lemma reconciliation_idempotent_witness :
  untimed <$>
    (usuarios
       (snd (dispatch Sample.env Sample.t1 (Sample.parse "checkout")
               (snd (dispatch Sample.env Sample.t0 (Sample.parse "checkout")
                       Sample.empty_world)))) !! "a@x.com")
  = Some (1%Z, "a@x.com", None, Some "cus_1", "ativo", Some "Plano Anual",
          Some "AAECAwQFBgcICQoLDA0ODxAREhMUFRYXGBkaGxwdHh8", Sample.t0).
Proof.
  rewrite (reconciliation_idempotent Sample.env Sample.t0 Sample.t1
             (Sample.parse "checkout") Sample.empty_world "a@x.com");
    reflexivity.
Defined.

(** ** [POST /webhook-stripe] *)

Lemma handler_never_throws (c : M unit) (msg : string) (w : World) :
  exists w', try_catch c (fun error => console_error msg error) w = (Ok tt, w').
Proof.
  unfold try_catch. destruct (c w) as [[[]|err] w1]; cbn; eauto.
Qed.

Lemma dispatch_never_throws env now event w :
  exists w', dispatch env now event w = (Ok tt, w').
Proof.
  unfold dispatch. repeat case_bool_decide;
    try apply handler_never_throws. cbn. eauto.
Qed.

(** C8. The webhook endpoint. When the signature check throws, the
    response is a 400 carrying the message, one error line is logged and
    the world is otherwise untouched: no row is written and no query, no
    Stripe call and no random draw is made, so no handler ran. When the
    check succeeds the response is [{status: "success"}] for every event,
    every table and every pattern of faults, and the world is what the
    dispatch of the event leaves; for an event type outside the three
    handled ones that is one log line and nothing else. *)
Theorem webhook_stripe_spec env now req w :
  (forall message,
     constructEvent env (raw_body req) (stripe_signature req)
       (STRIPE_WEBHOOK_SECRET env) = inr message ->
     webhook_stripe env now req w =
     (Ok (mkResponse 400 (Send ("Webhook Error: " +:+ message))),
      add_log (Error "Erro no webhook:" message) w)) /\
  (forall event,
     constructEvent env (raw_body req) (stripe_signature req)
       (STRIPE_WEBHOOK_SECRET env) = inl event ->
     fst (webhook_stripe env now req w) =
     Ok (mkResponse 200 (Json [("status", JStr "success")])) /\
     snd (webhook_stripe env now req w) = snd (dispatch env now event w) /\
     (event_type event <> "checkout.session.completed" ->
      event_type event <> "invoice.paid" ->
      event_type event <> "customer.subscription.deleted" ->
      snd (webhook_stripe env now req w) =
      add_log (Log ("Evento não tratado: " +:+ event_type event)) w)).
Proof.
  split.
  - intros message Hverify. unfold webhook_stripe. by rewrite Hverify.
  - intros event Hverify. unfold webhook_stripe. rewrite Hverify.
    unfold bind.
    destruct (dispatch_never_throws env now event w) as [w' Hrun].
    rewrite Hrun. cbn. repeat split.
    intros H1 H2 H3. revert Hrun. unfold dispatch.
    rewrite !bool_decide_eq_false_2 by done.
    by intros [= <-].
Qed.

Lemma webhook_stripe_spec_witness :
  webhook_stripe Sample.env Sample.t0 Sample.forged_request Sample.one_row =
  (Ok (mkResponse 400
         (Send "Webhook Error: No signatures found matching the expected signature for payload")),
   add_log
     (Error "Erro no webhook:"
        "No signatures found matching the expected signature for payload")
     Sample.one_row) /\
  fst (webhook_stripe Sample.env Sample.t0 Sample.good_request Sample.one_row) =
  Ok (mkResponse 200 (Json [("status", JStr "success")])) /\
  snd (webhook_stripe Sample.env Sample.t0 Sample.unknown_request Sample.one_row) =
  add_log (Log "Evento não tratado: charge.succeeded") Sample.one_row.
Proof.
  destruct (webhook_stripe_spec Sample.env Sample.t0 Sample.forged_request
              Sample.one_row) as [Hbad _].
  destruct (webhook_stripe_spec Sample.env Sample.t0 Sample.good_request
              Sample.one_row) as [_ Hgood].
  destruct (webhook_stripe_spec Sample.env Sample.t0 Sample.unknown_request
              Sample.one_row) as [_ Hother].
  split; [apply Hbad; reflexivity|].
  split; [apply (Hgood _ eq_refl)|].
  apply (Hother _ eq_refl); discriminate.
Defined.

(** ** [POST /api/create-checkout-session] *)

Lemma plan_of_planId_Some planId offering :
  plan_of_planId planId = Some offering ->
  truthy planId = true /\
  (planId = JStr "trimestral" /\
   offering = (7500%Z, "month", 3%Z, "Plano Trimestral") \/
   planId = JStr "anual" /\
   offering = (18000%Z, "year", 1%Z, "Plano Anual")).
Proof.
  unfold plan_of_planId, strict_eq_str.
  destruct planId as [| | | |s|]; try discriminate.
  repeat case_bool_decide; intros [= <-]; subst; cbn; auto.
Qed.

Lemma plan_of_planId_None planId :
  planId <> JStr "trimestral" -> planId <> JStr "anual" ->
  plan_of_planId planId = None.
Proof.
  intros H1 H2. unfold plan_of_planId, strict_eq_str.
  destruct planId as [| | | |s|]; try done.
  rewrite !bool_decide_eq_false_2; [done| |]; congruence.
Qed.

(** An accepted request goes on to Stripe: its first create request is
    the product of the plan, and the price that follows a created product
    carries the amount and the billing interval of the plan. *)
Lemma checkout_session_accepted env req w amount interval count name :
  plan_of_planId (body_planId req) = Some (amount, interval, count, name) ->
  exists rest,
    stripe_requests (snd (create_checkout_session env req w)) =
    stripe_requests w
      ++ CreateProduct name ("Assinatura " +:+ name +:+ " do PayoutHub") :: rest /\
    forall product,
      stripe_create env
        (CreateProduct name ("Assinatura " +:+ name +:+ " do PayoutHub"))
      = inl product ->
      exists rest',
        rest = CreatePrice product amount "brl" interval count :: rest'.
Proof.
  intros Hplan. destruct (plan_of_planId_Some _ _ Hplan) as [Htruthy _].
  unfold create_checkout_session, try_catch, checkout_session_try.
  rewrite Htruthy, Hplan. cbn.
  unfold bind, stripe_request. cbn.
  destruct (stripe_create env (CreateProduct _ _)) as [product|err] eqn:Hp; cbn.
  2:{ exists []. split; [done|]. intros ? [=]. }
  destruct (stripe_create env (CreatePrice _ _ _ _ _)) as [price|err]; cbn.
  2:{ eexists. rewrite <- app_assoc. split; [done|].
      intros ? [= <-]. eauto. }
  destruct (truthy (body_email req)); cbn.
  - unfold lift. destruct (customers_list env (body_email req)) as [[|c cs]|err]; cbn.
    + unfold bind, stripe_request. cbn.
      destruct (stripe_create env (CreateCustomer _ _)) as [created|err]; cbn.
      * destruct (stripe_create env (CreateSession _ _ _ _ _ _ _)) as [session|err];
          cbn; eexists; rewrite <- !app_assoc; (split; [done|]);
          intros ? [= <-]; eauto.
      * eexists. rewrite <- !app_assoc. split; [done|]. intros ? [= <-]. eauto.
    + destruct (stripe_create env (CreateSession _ _ _ _ _ _ _)) as [session|err];
        cbn; eexists; rewrite <- !app_assoc; (split; [done|]);
        intros ? [= <-]; eauto.
    + eexists. rewrite <- !app_assoc. split; [done|]. intros ? [= <-]. eauto.
  - destruct (stripe_create env (CreateSession _ _ _ _ _ _ _)) as [session|err];
      cbn; eexists; rewrite <- !app_assoc; (split; [done|]);
      intros ? [= <-]; eauto.
Qed.

(** C9. The checkout endpoint knows two plan ids: [trimestral], a
    month/3 offering, and [anual], a year/1 offering. A request with any
    other plan id, or with none, is answered 400 with
    [{success: false, error}] and leaves the world as it was: nothing is
    sent to Stripe, so no checkout session is created. A request with
    one of the two ids is sent on to Stripe with the billing interval of
    its plan. *)
Theorem create_checkout_session_spec env req w :
  plan_of_planId (JStr "trimestral")
  = Some (7500%Z, "month", 3%Z, "Plano Trimestral") /\
  plan_of_planId (JStr "anual") = Some (18000%Z, "year", 1%Z, "Plano Anual") /\
  (body_planId req <> JStr "trimestral" ->
   body_planId req <> JStr "anual" ->
   exists error,
     create_checkout_session env req w = (Ok (bad_request error), w) /\
     bad_request error =
     mkResponse 400 (Json [("success", JBool false); ("error", JStr error)])) /\
  (forall amount interval count name,
     plan_of_planId (body_planId req) = Some (amount, interval, count, name) ->
     (body_planId req = JStr "trimestral" /\ interval = "month" /\ count = 3%Z \/
      body_planId req = JStr "anual" /\ interval = "year" /\ count = 1%Z) /\
     exists rest,
       stripe_requests (snd (create_checkout_session env req w)) =
       stripe_requests w
         ++ CreateProduct name ("Assinatura " +:+ name +:+ " do PayoutHub")
         :: rest /\
       forall product,
         stripe_create env
           (CreateProduct name ("Assinatura " +:+ name +:+ " do PayoutHub"))
         = inl product ->
         exists rest',
           rest = CreatePrice product amount "brl" interval count :: rest').
Proof.
  split; [done|]. split; [done|]. split.
  - intros H1 H2.
    unfold create_checkout_session, try_catch, checkout_session_try.
    destruct (truthy (body_planId req)); cbn.
    + rewrite (plan_of_planId_None _ H1 H2). cbn. eauto.
    + eauto.
  - intros amount interval count name Hplan. split.
    + destruct (plan_of_planId_Some _ _ Hplan) as [_ [[-> Hoff]|[-> Hoff]]];
        injection Hoff as -> -> -> ->; auto.
    + by apply checkout_session_accepted.
Qed.

Lemma create_checkout_session_spec_witness :
  (exists error,
     create_checkout_session Sample.env (Sample.checkout_request (JStr "mensal"))
       Sample.empty_world
     = (Ok (bad_request error), Sample.empty_world) /\
     bad_request error =
     mkResponse 400 (Json [("success", JBool false); ("error", JStr error)])) /\
  (exists error,
     create_checkout_session Sample.env (Sample.checkout_request JUndefined)
       Sample.empty_world
     = (Ok (bad_request error), Sample.empty_world) /\
     bad_request error =
     mkResponse 400 (Json [("success", JBool false); ("error", JStr error)])) /\
  exists rest,
    stripe_requests
      (snd (create_checkout_session Sample.env
              (Sample.checkout_request (JStr "anual")) Sample.empty_world))
    = [] ++ CreateProduct "Plano Anual" "Assinatura Plano Anual do PayoutHub"
         :: rest /\
    forall product,
      stripe_create Sample.env
        (CreateProduct "Plano Anual" "Assinatura Plano Anual do PayoutHub")
      = inl product ->
      exists rest', rest = CreatePrice product 18000 "brl" "year" 1 :: rest'.
Proof.
  destruct (create_checkout_session_spec Sample.env
              (Sample.checkout_request (JStr "mensal")) Sample.empty_world)
    as (_ & _ & Hbad & _).
  destruct (create_checkout_session_spec Sample.env
              (Sample.checkout_request JUndefined) Sample.empty_world)
    as (_ & _ & Hmissing & _).
  destruct (create_checkout_session_spec Sample.env
              (Sample.checkout_request (JStr "anual")) Sample.empty_world)
    as (_ & _ & _ & Hgood).
  split; [apply Hbad; discriminate|].
  split; [apply Hmissing; discriminate|].
  apply (Hgood 18000%Z "year" 1%Z "Plano Anual" eq_refl).
Defined.

(** * Further properties of the code *)

(** ** The token issuer *)

Lemma list_ind3 {A} (P : list A -> Prop) :
  P [] -> (forall a, P [a]) -> (forall a b, P [a; b]) ->
  (forall a b c l, P l -> P (a :: b :: c :: l)) ->
  forall l, P l.
Proof.
  intros H0 H1 H2 H3. fix IH 1.
  intros [|a [|b [|c l]]]; [exact H0|apply H1|apply H2|apply H3, IH].
Qed.

Lemma encode_length bs :
  String.length (Base64Url.encode bs) = ((4 * length bs + 2) / 3)%nat.
Proof.
  induction bs as [|a|a b|a b c l IH] using list_ind3; [done..|].
  cbn [Base64Url.encode String.length length]. rewrite IH.
  replace (4 * S (S (S (length l))) + 2)%nat
    with (4 * 3 + (4 * length l + 2))%nat by lia.
  rewrite (Nat.div_add_l 4 3) by lia. lia.
Qed.

Lemma digit_in_alphabet n : In (Base64Url.digit n) Base64Url.alphabet.
Proof.
  unfold Base64Url.digit. apply nth_In.
  assert (0 <= n mod 64 < 64)%Z by (apply Z.mod_pos_bound; lia).
  change (length Base64Url.alphabet) with 64%nat. lia.
Qed.

Lemma encode_url_safe bs : url_safe (Base64Url.encode bs).
Proof.
  unfold url_safe.
  induction bs as [|a|a b|a b c l IH] using list_ind3;
    cbn [Base64Url.encode list_ascii_of_string];
    repeat (apply Forall_cons; split; [apply digit_in_alphabet|]);
    done.
Qed.

(** Checking a property of one or two bytes on all of them. *)
Lemma byte_check (P : Z -> bool) :
  forallb (fun i => P (Z.of_nat i)) (seq 0 256) = true ->
  forall a, is_byte a -> P a = true.
Proof.
  intros Hall a [Hlo Hhi]. rewrite forallb_forall in Hall.
  rewrite <- (Z2Nat.id a) by done. apply Hall, in_seq. lia.
Qed.

Lemma byte_check2 (P : Z -> Z -> bool) :
  forallb (fun i => forallb (fun j => P (Z.of_nat i) (Z.of_nat j)) (seq 0 256))
    (seq 0 256) = true ->
  forall a b, is_byte a -> is_byte b -> P a b = true.
Proof.
  intros Hall a b Ha Hb.
  apply (byte_check (fun x => P x b)); [|done].
  rewrite forallb_forall. intros i Hi.
  rewrite forallb_forall in Hall. specialize (Hall i Hi).
  by apply (byte_check (fun y => P (Z.of_nat i) y)).
Qed.

Lemma undigit_digit n : (0 <= n < 64)%Z -> undigit (Base64Url.digit n) = n.
Proof.
  intros [Hlo Hhi].
  assert (Hall : forallb (fun i => (undigit (Base64Url.digit (Z.of_nat i))
                                    =? Z.of_nat i)%Z) (seq 0 64) = true)
    by (vm_compute; reflexivity).
  rewrite forallb_forall in Hall.
  rewrite <- (Z2Nat.id n) by done. apply Z.eqb_eq, Hall, in_seq. lia.
Qed.

(** The four digits of three bytes: each is a sextet, and the bytes can
    be put together again from them. *)
Lemma sextets_of_bytes a b :
  is_byte a -> is_byte b ->
  ((0 <= Z.shiftr a 2 < 64) /\
   (0 <= Z.lor (Z.shiftl (Z.land a 3) 4) (Z.shiftr b 4) < 64) /\
   (0 <= Z.lor (Z.shiftl (Z.land a 15) 2) (Z.shiftr b 6) < 64) /\
   (0 <= Z.land a 63 < 64))%Z.
Proof.
  intros Ha Hb.
  pose proof (byte_check2
    (fun a b =>
       (0 <=? Z.shiftr a 2)%Z && (Z.shiftr a 2 <? 64)%Z
       && (0 <=? Z.lor (Z.shiftl (Z.land a 3) 4) (Z.shiftr b 4))%Z
       && (Z.lor (Z.shiftl (Z.land a 3) 4) (Z.shiftr b 4) <? 64)%Z
       && (0 <=? Z.lor (Z.shiftl (Z.land a 15) 2) (Z.shiftr b 6))%Z
       && (Z.lor (Z.shiftl (Z.land a 15) 2) (Z.shiftr b 6) <? 64)%Z
       && (0 <=? Z.land a 63)%Z && (Z.land a 63 <? 64)%Z)
    ltac:(vm_compute; reflexivity) a b Ha Hb) as H.
  cbv beta in H. repeat (apply andb_prop in H as [H ?]). lia.
Qed.

Lemma bytes_of_sextets a b :
  is_byte a -> is_byte b ->
  Z.lor (Z.shiftl (Z.shiftr a 2) 2)
    (Z.shiftr (Z.lor (Z.shiftl (Z.land a 3) 4) (Z.shiftr b 4)) 4) = a /\
  Z.land (Z.lor (Z.shiftl (Z.land a 3) 4) (Z.shiftr b 4)) 15 = Z.shiftr b 4 /\
  Z.shiftr (Z.lor (Z.shiftl (Z.land a 15) 2) (Z.shiftr b 6)) 2 = Z.land a 15 /\
  Z.land (Z.lor (Z.shiftl (Z.land a 15) 2) (Z.shiftr b 6)) 3 = Z.shiftr b 6 /\
  Z.lor (Z.shiftl (Z.shiftr a 4) 4) (Z.land a 15) = a /\
  Z.lor (Z.shiftl (Z.shiftr a 6) 6) (Z.land a 63) = a.
Proof.
  intros Ha Hb.
  pose proof (byte_check2
    (fun a b =>
       (Z.lor (Z.shiftl (Z.shiftr a 2) 2)
          (Z.shiftr (Z.lor (Z.shiftl (Z.land a 3) 4) (Z.shiftr b 4)) 4) =? a)%Z
       && (Z.land (Z.lor (Z.shiftl (Z.land a 3) 4) (Z.shiftr b 4)) 15
           =? Z.shiftr b 4)%Z
       && (Z.shiftr (Z.lor (Z.shiftl (Z.land a 15) 2) (Z.shiftr b 6)) 2
           =? Z.land a 15)%Z
       && (Z.land (Z.lor (Z.shiftl (Z.land a 15) 2) (Z.shiftr b 6)) 3
           =? Z.shiftr b 6)%Z
       && (Z.lor (Z.shiftl (Z.shiftr a 4) 4) (Z.land a 15) =? a)%Z
       && (Z.lor (Z.shiftl (Z.shiftr a 6) 6) (Z.land a 63) =? a)%Z)
    ltac:(vm_compute; reflexivity) a b Ha Hb) as H.
  cbv beta in H. repeat (apply andb_prop in H as [H ?]).
  repeat split; by apply Z.eqb_eq.
Qed.

Lemma decode_encode bs : Forall is_byte bs -> decode (Base64Url.encode bs) = bs.
Proof.
  assert (Hzero : is_byte 0) by (unfold is_byte; lia).
  induction bs as [|a|a b|a b c l IH] using list_ind3; intros Hbytes.
  - done.
  - apply Forall_cons in Hbytes as [Ha _].
    destruct (sextets_of_bytes a 0 Ha Hzero) as (S1 & S2 & _).
    destruct (bytes_of_sextets a 0 Ha Hzero) as (R1 & _).
    cbn [Base64Url.encode decode].
    rewrite <- (Z.lor_0_r (Z.shiftl (Z.land a 3) 4)).
    change 0%Z with (Z.shiftr 0 4) at 1.
    rewrite !undigit_digit by done. by rewrite R1.
  - apply Forall_cons in Hbytes as [Ha Hbytes].
    apply Forall_cons in Hbytes as [Hb _].
    destruct (sextets_of_bytes a b Ha Hb) as (S1 & S2 & _).
    destruct (sextets_of_bytes b 0 Hb Hzero) as (_ & _ & S3 & _).
    destruct (bytes_of_sextets a b Ha Hb) as (R1 & R2 & _).
    destruct (bytes_of_sextets b 0 Hb Hzero) as (_ & _ & R3 & _ & R5 & _).
    cbn [Base64Url.encode decode].
    rewrite <- (Z.lor_0_r (Z.shiftl (Z.land b 15) 2)).
    change 0%Z with (Z.shiftr 0 6) at 1.
    rewrite !undigit_digit by done. by rewrite R1, R2, R3, R5.
  - apply Forall_cons in Hbytes as [Ha Hbytes].
    apply Forall_cons in Hbytes as [Hb Hbytes].
    apply Forall_cons in Hbytes as [Hc Hbytes].
    destruct (sextets_of_bytes a b Ha Hb) as (S1 & S2 & _).
    destruct (sextets_of_bytes b c Hb Hc) as (_ & _ & S3 & _).
    destruct (sextets_of_bytes c 0 Hc Hzero) as (_ & _ & _ & S4).
    destruct (bytes_of_sextets a b Ha Hb) as (R1 & R2 & _).
    destruct (bytes_of_sextets b c Hb Hc) as (_ & _ & R3 & R4 & R5 & _).
    destruct (bytes_of_sextets c 0 Hc Hzero) as (_ & _ & _ & _ & _ & R6).
    cbn [Base64Url.encode decode].
    rewrite !undigit_digit by done.
    by rewrite R1, R2, R3, R4, R5, R6, IH.
Qed.

Lemma next_bytes_are_bytes env w : Forall is_byte (next_bytes env w).
Proof.
  unfold next_bytes. apply Forall_map, Forall_forall. intros i _.
  apply Z.mod_pos_bound. lia.
Qed.

(** X1. Whatever the random source gives, the token of [generateApiKey]
    has exactly 43 characters, all of them letters, digits, [-] or [_]
    (no padding, nothing to escape in a URL or header), and issuing it
    uses one draw and changes nothing else. *)
Theorem generateApiKey_token env w :
  exists k,
    generateApiKey env w =
    (Ok k,
     mkWorld (usuarios w) (auto_increment w) (console w) (S (draws w))
       (queries w) (stripe_requests w)) /\
    String.length k = 43%nat /\
    url_safe k /\
    ~ In " "%char (list_ascii_of_string k).
Proof.
  exists (next_key env w). split; [apply generateApiKey_run|].
  split; [reflexivity|]. 
  assert (Hsafe : url_safe (next_key env w)) by apply encode_url_safe.
  split; [exact Hsafe|].
  intros Hspace. unfold url_safe in Hsafe. rewrite Forall_forall in Hsafe.
  apply list_elem_of_In, Hsafe in Hspace. revert Hspace.
  vm_compute. intuition discriminate.
Qed.

(** X2. The token determines the random bytes it was made from: two
    draws, of any two random sources, that give the same token gave the
    same 32 bytes. Tokens collide only when the random source repeats. *)
Theorem generateApiKey_injective env1 w1 env2 w2 :
  next_key env1 w1 = next_key env2 w2 ->
  next_bytes env1 w1 = next_bytes env2 w2.
Proof.
  intros Hsame.
  rewrite <- (decode_encode (next_bytes env1 w1)) by apply next_bytes_are_bytes.
  rewrite <- (decode_encode (next_bytes env2 w2)) by apply next_bytes_are_bytes.
  exact (f_equal decode Hsame).
Qed.

Lemma generateApiKey_injective_witness :
  next_bytes Sample.env Sample.empty_world = next_bytes Sample.env Sample.one_row.
Proof.
  apply (generateApiKey_injective Sample.env Sample.empty_world Sample.env
           Sample.one_row).
  reflexivity.
Defined.

(** ** The handlers when something fails *)

Lemma checkout_fault env now session w e err :
  as_truthy (session_email session) = Some e ->
  db_fault env (queries w) = Some err \/
  (db_fault env (queries w) = None /\ db_fault env (S (queries w)) = Some err) ->
  fst (handleCheckoutSessionCompleted env now session w) = Ok tt /\
  usuarios (snd (handleCheckoutSessionCompleted env now session w)) = usuarios w /\
  auto_increment (snd (handleCheckoutSessionCompleted env now session w))
  = auto_increment w /\
  console (snd (handleCheckoutSessionCompleted env now session w))
  = console w ++ [Error "Erro ao processar checkout:" err].
Proof.
  intros He [Hq1|[Hq1 Hq2]]; enter_checkout session He; rewrite Hq1; [done|].
  destruct (usuarios w !! e) as [row|]; cbn;
    [destruct (as_truthy (api_key row)); cbn|];
    rewrite ?generateApiKey_run; cbn; by rewrite Hq2.
Qed.

(** X3. A checkout whose SELECT or whose INSERT/UPDATE fails leaves the
    table and the id counter as they were (no half-written row), logs
    the error once and still ends normally. *)
Theorem checkout_query_failure env now session w e err :
  as_truthy (session_email session) = Some e ->
  db_fault env (queries w) = Some err \/
  (db_fault env (queries w) = None /\ db_fault env (S (queries w)) = Some err) ->
  fst (handleCheckoutSessionCompleted env now session w) = Ok tt /\
  usuarios (snd (handleCheckoutSessionCompleted env now session w)) = usuarios w /\
  auto_increment (snd (handleCheckoutSessionCompleted env now session w))
  = auto_increment w /\
  console (snd (handleCheckoutSessionCompleted env now session w))
  = console w ++ [Error "Erro ao processar checkout:" err].
Proof. apply checkout_fault. Qed.

Lemma checkout_query_failure_witness :
  (usuarios (snd (handleCheckoutSessionCompleted Faulty.db_down Sample.t0
                    Sample.checkout_session Sample.one_row))
   = usuarios Sample.one_row /\
   console (snd (handleCheckoutSessionCompleted Faulty.db_down Sample.t0
                   Sample.checkout_session Sample.one_row))
   = [Error "Erro ao processar checkout:" "connect ECONNREFUSED"]) /\
  (usuarios (snd (handleCheckoutSessionCompleted Faulty.write_fails Sample.t0
                    Sample.checkout_session Sample.empty_world))
   = ∅ /\
   console (snd (handleCheckoutSessionCompleted Faulty.write_fails Sample.t0
                   Sample.checkout_session Sample.empty_world))
   = [Error "Erro ao processar checkout:" "Lock wait timeout exceeded"]).
Proof.
  destruct (checkout_query_failure Faulty.db_down Sample.t0
              Sample.checkout_session Sample.one_row "a@x.com"
              "connect ECONNREFUSED" eq_refl (or_introl eq_refl))
    as (_ & Htable & _ & Hlog).
  destruct (checkout_query_failure Faulty.write_fails Sample.t0
              Sample.checkout_session Sample.empty_world "a@x.com"
              "Lock wait timeout exceeded" eq_refl
              (or_intror (conj eq_refl eq_refl)))
    as (_ & Htable' & _ & Hlog').
  repeat split; assumption.
Defined.

(** X4. A paid invoice whose subscription or customer cannot be
    retrieved from Stripe, or whose subscription has no plan to read,
    never reaches the database: no query is issued, the world is as
    before but for one error line, and the handler ends normally. *)
Theorem invoice_lookup_failure env now invoice w subscriptionId customerId :
  as_truthy (subscription invoice) = Some subscriptionId ->
  as_truthy (customer invoice) = Some customerId ->
  (forall err,
     subscriptions_retrieve env subscriptionId = inr err ->
     handleInvoicePaid env now invoice w =
     (Ok tt, add_log (Error "Erro ao processar invoice paga:" err) w)) /\
  (forall sub err,
     subscriptions_retrieve env subscriptionId = inl sub ->
     customers_retrieve env customerId = inr err ->
     handleInvoicePaid env now invoice w =
     (Ok tt, add_log (Error "Erro ao processar invoice paga:" err) w)) /\
  (forall sub cust,
     subscriptions_retrieve env subscriptionId = inl sub ->
     customers_retrieve env customerId = inl cust ->
     first_plan sub = None ->
     exists err,
       handleInvoicePaid env now invoice w =
       (Ok tt, add_log (Error "Erro ao processar invoice paga:" err) w)).
Proof.
  intros Hs Hc. split; [|split].
  - intros err Hsub. enter_invoice Hs Hc. by rewrite Hsub.
  - intros sub err Hsub Hcust. enter_invoice Hs Hc. by rewrite Hsub, Hcust.
  - intros sub cust Hsub Hcust Hplan. enter_invoice Hs Hc.
    rewrite Hsub, Hcust. cbn. unfold first_plan in Hplan.
    destruct (items_data sub) as [|item rest]; [by eexists|].
    rewrite Hplan. by eexists.
Qed.

Lemma invoice_lookup_failure_witness :
  handleInvoicePaid Faulty.no_subscription Sample.t0 Sample.invoice Sample.one_row
  = (Ok tt,
     add_log (Error "Erro ao processar invoice paga:" "No such subscription: sub_1")
       Sample.one_row) /\
  exists err,
    handleInvoicePaid Faulty.no_items Sample.t0 Sample.invoice Sample.one_row
    = (Ok tt, add_log (Error "Erro ao processar invoice paga:" err) Sample.one_row).
Proof.
  destruct (invoice_lookup_failure Faulty.no_subscription Sample.t0
              Sample.invoice Sample.one_row "sub_1" "cus_1" eq_refl eq_refl)
    as (Hsub & _ & _).
  destruct (invoice_lookup_failure Faulty.no_items Sample.t0
              Sample.invoice Sample.one_row "sub_1" "cus_1" eq_refl eq_refl)
    as (_ & _ & Hplan).
  split; [apply Hsub; reflexivity|].
  apply (Hplan _ _ eq_refl eq_refl eq_refl).
Defined.

(** ** What a delivery does to the table and its counter *)

Lemma checkout_world_step env now session w :
  world_step env w (snd (handleCheckoutSessionCompleted env now session w)).
Proof.
  destruct (as_truthy (session_email session)) as [e|] eqn:He;
    [|rewrite checkout_no_email by done; by apply ws_same].
  destruct (db_fault env (queries w)) as [err|] eqn:Hq1.
  { destruct (checkout_fault env now session w e err He (or_introl Hq1))
      as (_ & Ht & Hc & _). by apply ws_same. }
  destruct (db_fault env (S (queries w))) as [err|] eqn:Hq2.
  { destruct (checkout_fault env now session w e err He
                (or_intror (conj Hq1 Hq2))) as (_ & Ht & Hc & _).
    by apply ws_same. }
  destruct (usuarios w !! e) as [row|] eqn:Hrow.
  - rewrite (checkout_update _ _ _ _ _ _ He Hq1 Hq2 Hrow).
    eapply ws_checkout; [exact Hrow| |done]. cbn.
    by apply alter_as_insert.
  - rewrite (checkout_insert _ _ _ _ _ He Hq1 Hq2 Hrow).
    by eapply ws_insert.
Qed.

Lemma invoice_counter env now invoice w :
  auto_increment (snd (handleInvoicePaid env now invoice w)) = auto_increment w.
Proof.
  unfold handleInvoicePaid, try_catch, invoice_try.
  destruct (as_truthy (subscription invoice)) as [sid|]; [|done].
  destruct (as_truthy (customer invoice)) as [cid|]; [|done].
  unfold bind, lift, pool_query, Sql.UPDATE_where_email.
  destruct (subscriptions_retrieve env sid) as [sub|]; [|done].
  destruct (customers_retrieve env cid) as [cust|]; [|done]. cbn.
  destruct (items_data sub) as [|item rest]; [done|].
  destruct (item_plan item) as [plan|]; [|done]. cbn.
  destruct (plan_of_interval plan). cbn.
  destruct (db_fault env (queries w)); [done|].
  by destruct (customer_email cust).
Qed.

Lemma canceled_counter env now sub w :
  auto_increment (snd (handleSubscriptionCanceled env now sub w)) = auto_increment w.
Proof.
  unfold handleSubscriptionCanceled, try_catch, canceled_try.
  destruct (as_truthy (customer sub)) as [cid|]; [|done].
  unfold bind, lift, pool_query, Sql.UPDATE_where_email.
  destruct (customers_retrieve env cid) as [cust|]; [|done]. cbn.
  destruct (db_fault env (queries w)); [done|].
  by destruct (customer_email cust).
Qed.

Lemma dispatch_world_step env now event w :
  world_step env w (snd (dispatch env now event w)).
Proof.
  unfold dispatch. repeat case_bool_decide.
  - apply checkout_world_step.
  - pose proof (invoice_counter env now (data_object event) w) as Hc.
    destruct (invoice_table env now (data_object event) w)
      as [Hsame|(e & plan & _ & Halter)]; [by apply ws_same|].
    destruct (usuarios w !! e) as [row|] eqn:Hrow.
    + rewrite (alter_as_insert _ _ _ _ Hrow) in Halter.
      by eapply ws_invoice.
    + rewrite (alter_missing _ _ _ Hrow) in Halter. by apply ws_same.
  - pose proof (canceled_counter env now (data_object event) w) as Hc.
    destruct (canceled_table env now (data_object event) w)
      as [Hsame|(e & _ & Halter)]; [by apply ws_same|].
    destruct (usuarios w !! e) as [row|] eqn:Hrow.
    + rewrite (alter_as_insert _ _ _ _ Hrow) in Halter.
      by eapply ws_canceled.
    + rewrite (alter_missing _ _ _ Hrow) in Halter. by apply ws_same.
  - by apply ws_same.
Qed.

(** An invariant of worlds that every step keeps holds after every
    history. *)
Lemma replay_invariant env (I : World -> Prop) :
  (forall w w', world_step env w w' -> I w -> I w') ->
  forall deliveries w, I w -> I (replay env deliveries w).
Proof.
  intros Hstep deliveries.
  induction deliveries as [|[now event] rest IH]; intros w Hw; [done|].
  cbn. apply IH. eapply Hstep; [apply dispatch_world_step|done].
Qed.

Lemma reconciled_checkout now customerId planName k row :
  str_empty k = false -> nome row = None ->
  reconciled (Sql.SET_checkout now customerId planName k row).
Proof.
  intros Hk Hnome. unfold reconciled. cbn.
  split; [by left|]. split; [by exists k|]. by repeat split.
Qed.

Lemma reconciled_invoice now planName intervalClause row :
  reconciled row -> reconciled (Sql.SET_invoice now planName intervalClause row).
Proof.
  intros (_ & Hkey & Hsub & _ & Hnome). unfold reconciled. cbn.
  split; [by left|]. by repeat split.
Qed.

Lemma reconciled_canceled now row :
  reconciled row -> reconciled (Sql.SET_canceled now row).
Proof.
  intros (_ & Hkey & Hsub & Hren & Hnome). unfold reconciled. cbn.
  split; [by right|]. by repeat split.
Qed.

Lemma world_step_update_cases env w w' :
  world_step env w w' ->
  (usuarios w' = usuarios w /\ auto_increment w' = auto_increment w) \/
  (exists e row, usuarios w !! e = None /\
     usuarios w' = <[e := row]> (usuarios w) /\
     auto_increment w' = (auto_increment w + 1)%Z /\
     email row = e /\ id row = auto_increment w /\ reconciled row) \/
  (exists e row row', usuarios w !! e = Some row /\
     usuarios w' = <[e := row']> (usuarios w) /\
     auto_increment w' = auto_increment w /\
     identity_of row' = identity_of row /\
     (reconciled row -> reconciled row')).
Proof.
  intros [Ht Hc|now e c p Hnone Ht Hc|now e row c p Hrow Ht Hc
         |now e row name clause Hrow Ht Hc|now e row Hrow Ht Hc].
  - by left.
  - right. left. eexists e, _. split; [done|]. split; [exact Ht|].
    split; [done|]. split; [done|]. split; [done|].
    unfold reconciled. cbn. split; [by left|].
    split; [|by repeat split].
    eexists. split; [done|]. apply next_key_nonempty.
  - right. right. eexists e, row, _. split; [done|]. split; [exact Ht|].
    split; [done|]. split; [done|].
    intros (_ & _ & _ & _ & Hnome).
    apply reconciled_checkout; [apply key_for_nonempty|done].
  - right. right. eexists e, row, _. split; [done|]. split; [exact Ht|].
    split; [done|]. split; [done|]. apply reconciled_invoice.
  - right. right. eexists e, row, _. split; [done|]. split; [exact Ht|].
    split; [done|]. split; [done|]. apply reconciled_canceled.
Qed.

(** ** Invariants of the table *)

Lemma keys_wf_step env w w' : world_step env w w' -> keys_wf w -> keys_wf w'.
Proof.
  intros Hstep [Hown Hids].
  destruct (world_step_update_cases env w w' Hstep)
    as [[Ht Hc]|[(e & row & Hnone & Ht & Hc & Hemail & Hid & _)
                |(e & row & row' & Hrow & Ht & Hc & Hsame & _)]].
  - unfold keys_wf. by rewrite Ht, Hc.
  - assert (Hlt : forall e' r', usuarios w' !! e' = Some r' ->
                    (e' = e /\ r' = row) \/ (e' <> e /\ usuarios w !! e' = Some r')).
    { intros e' r'. rewrite Ht. destruct (decide (e = e')) as [<-|Hne].
      - rewrite lookup_insert_eq. intros [= <-]. by left.
      - rewrite lookup_insert_ne by done. intros ?. right. split; congruence. }
    split.
    + intros e' r' Hr'. rewrite Hc.
      destruct (Hlt _ _ Hr') as [[-> ->]|[_ Hold]]; [split; [done|lia]|].
      destruct (Hown _ _ Hold). split; [done|lia].
    + intros e1 e2 r1 r2 H1 H2 Heq.
      destruct (Hlt _ _ H1) as [[-> ->]|[_ Hold1]];
        destruct (Hlt _ _ H2) as [[-> ->]|[_ Hold2]]; [done| | |by eapply Hids].
      * destruct (Hown _ _ Hold2). lia.
      * destruct (Hown _ _ Hold1). lia.
  - assert (Hsame' : id row' = id row /\ email row' = email row)
      by (unfold identity_of in Hsame; by simplify_eq).
    destruct Hsame' as [Hid Hemail].
    assert (Hlt : forall e' r', usuarios w' !! e' = Some r' ->
                    exists r, usuarios w !! e' = Some r /\ id r' = id r
                              /\ email r' = email r).
    { intros e' r'. rewrite Ht. destruct (decide (e = e')) as [<-|Hne].
      - rewrite lookup_insert_eq. intros [= <-]. eauto.
      - rewrite lookup_insert_ne by done. eauto. }
    split.
    + intros e' r' Hr'. rewrite Hc.
      destruct (Hlt _ _ Hr') as (r & Hr & -> & ->). by apply Hown.
    + intros e1 e2 r1 r2 H1 H2 Heq.
      destruct (Hlt _ _ H1) as (r1' & Hr1 & Hid1 & _).
      destruct (Hlt _ _ H2) as (r2' & Hr2 & Hid2 & _).
      eapply Hids; [exact Hr1|exact Hr2|congruence].
Qed.

(** X5. The keys of the table stay sound through every history of
    deliveries: each row is stored under its own email, every id is
    below the auto-increment counter, and no two rows share an id. *)
Theorem replay_keeps_keys env deliveries w :
  keys_wf w -> keys_wf (replay env deliveries w).
Proof. apply replay_invariant, keys_wf_step. Qed.

Lemma all_reconciled_step env w w' :
  world_step env w w' -> all_reconciled w -> all_reconciled w'.
Proof.
  intros Hstep Hall.
  destruct (world_step_update_cases env w w' Hstep)
    as [[Ht Hc]|[(e & row & Hnone & Ht & _ & _ & _ & Hrec)
                |(e & row & row' & Hrow & Ht & _ & _ & Hrec)]];
    unfold all_reconciled; rewrite Ht; [done| |].
  - intros e' r'. destruct (decide (e = e')) as [<-|Hne].
    + rewrite lookup_insert_eq. by intros [= <-].
    + rewrite lookup_insert_ne by done. apply Hall.
  - intros e' r'. destruct (decide (e = e')) as [<-|Hne].
    + rewrite lookup_insert_eq. intros [= <-]. eapply Hrec, Hall, Hrow.
    + rewrite lookup_insert_ne by done. apply Hall.
Qed.

(** X6. If every row has a status among [ativo] and [inativo], a
    non-empty token, both subscription dates and no name (as in the
    empty table), the same is true after every history of deliveries:
    the handlers never leave a row without a token or a renewal date, and
    never write a name. *)
Theorem replay_keeps_rows_reconciled env deliveries w :
  all_reconciled w -> all_reconciled (replay env deliveries w).
Proof. apply replay_invariant, all_reconciled_step. Qed.

Lemma world_step_keeps_identity env w w' e row :
  world_step env w w' -> usuarios w !! e = Some row ->
  exists row', usuarios w' !! e = Some row' /\ identity_of row' = identity_of row.
Proof.
  intros Hstep Hrow.
  destruct (world_step_update_cases env w w' Hstep)
    as [[Ht Hc]|[(e0 & r0 & Hnone & Ht & _)
                |(e0 & r0 & r0' & Hr0 & Ht & _ & Hsame & _)]]; rewrite Ht.
  - eauto.
  - rewrite lookup_insert_ne by congruence. eauto.
  - destruct (decide (e0 = e)) as [->|Hne].
    + rewrite lookup_insert_eq. eexists. split; [done|]. congruence.
    + rewrite lookup_insert_ne by done. eauto.
Qed.

(** X7. No history of deliveries deletes a row or changes its id, its
    email, its name or its creation date. *)
Theorem replay_keeps_identity env deliveries w e row :
  usuarios w !! e = Some row ->
  exists row',
    usuarios (replay env deliveries w) !! e = Some row' /\
    identity_of row' = identity_of row.
Proof.
  revert w row. induction deliveries as [|[now event] rest IH];
    intros w row Hrow; [eauto|].
  cbn.
  destruct (world_step_keeps_identity env w _ e row
              (dispatch_world_step env now event w) Hrow) as (r1 & Hr1 & Hid1).
  destruct (IH _ _ Hr1) as (r2 & Hr2 & Hid2).
  exists r2. split; [done|]. congruence.
Qed.

Lemma keys_wf_empty w : usuarios w = ∅ -> keys_wf w.
Proof.
  intros Hempty. unfold keys_wf. rewrite Hempty.
  split; intros *; rewrite lookup_empty; discriminate.
Qed.

Lemma all_reconciled_empty w : usuarios w = ∅ -> all_reconciled w.
Proof.
  intros Hempty e row. rewrite Hempty, lookup_empty. discriminate.
Qed.

Lemma replay_keeps_keys_witness :
  keys_wf
    (replay Sample.env
       [(Sample.t0, Sample.parse "checkout"); (Sample.t1, Sample.parse "invoice");
        (Sample.t1, Sample.parse "deleted")]
       Sample.empty_world).
Proof.
  apply (replay_keeps_keys Sample.env _ Sample.empty_world).
  apply keys_wf_empty. reflexivity.
Defined.

Lemma replay_keeps_rows_reconciled_witness :
  all_reconciled
    (replay Sample.env
       [(Sample.t0, Sample.parse "checkout"); (Sample.t1, Sample.parse "invoice");
        (Sample.t1, Sample.parse "deleted")]
       Sample.empty_world).
Proof.
  apply (replay_keeps_rows_reconciled Sample.env _ Sample.empty_world).
  apply all_reconciled_empty. reflexivity.
Defined.

Lemma replay_keeps_identity_witness :
  exists row',
    usuarios
      (replay Sample.env
         [(Sample.t0, Sample.parse "checkout"); (Sample.t1, Sample.parse "deleted")]
         Sample.one_row) !! "a@x.com" = Some row' /\
    identity_of row' = (1%Z, "a@x.com", None, DateTime 2023 12 1 0).
Proof.
  apply (replay_keeps_identity Sample.env _ Sample.one_row "a@x.com"
           Sample.old_row).
  reflexivity.
Defined.

(** ** Which rows a delivery touches *)

(** X8. A delivery leaves every row but that of its target email as it
    was: a checkout can write only the row of the session's email, a
    paid invoice or a cancellation only the row of the email that Stripe
    has for the customer, and any other event writes no row at all. *)
Theorem dispatch_writes_only_target env now event w e :
  event_target env event <> Some e ->
  usuarios (snd (dispatch env now event w)) !! e = usuarios w !! e.
Proof.
  unfold event_target, dispatch. repeat case_bool_decide; intros Hother.
  - destruct (checkout_table env now (data_object event) w)
      as [->|(e0 & He0 & [[_ ->]|(row & _ & ->)])]; [done| |].
    + rewrite lookup_insert_ne; [done|congruence].
    + rewrite lookup_alter_ne; [done|congruence].
  - destruct (invoice_table env now (data_object event) w)
      as [->|(e0 & plan & Htarget & ->)]; [done|].
    rewrite Htarget in Hother. cbn in Hother.
    rewrite lookup_alter_ne; [done|congruence].
  - destruct (canceled_table env now (data_object event) w)
      as [->|(e0 & Htarget & ->)]; [done|].
    rewrite lookup_alter_ne; [done|congruence].
  - done.
Qed.

Lemma dispatch_writes_only_target_witness :
  usuarios (snd (dispatch Sample.env Sample.t0
                   {| event_type := "invoice.paid";
                      data_object := Sample.ghost_invoice |} Sample.one_row))
    !! "a@x.com" = Some Sample.old_row.
Proof.
  rewrite (dispatch_writes_only_target Sample.env Sample.t0 _ Sample.one_row
             "a@x.com"); [reflexivity|].
  vm_compute. discriminate.
Defined.

(** X9. Rows come into being through checkouts only. When a delivery
    leaves a row for an email that had none, the event was a
    [checkout.session.completed] for that email, and the row is the one
    its INSERT writes: next id, status [ativo], the token of this draw,
    subscribed now and renewing in three months. *)
Theorem dispatch_creates_on_checkout_only env now event w e row :
  usuarios w !! e = None ->
  usuarios (snd (dispatch env now event w)) !! e = Some row ->
  event_type event = "checkout.session.completed" /\
  as_truthy (session_email (data_object event)) = Some e /\
  row = mkUsuario (auto_increment w) e None (customer (data_object event))
          "ativo" (session_plan (data_object event)) (Some (next_key env w))
          now (Some now) (Some (DATE_ADD now 3 MONTH)) None.
Proof.
  intros Hnone. unfold dispatch. repeat case_bool_decide.
  - destruct (checkout_table env now (data_object event) w)
      as [->|(e0 & He0 & [[_ ->]|(row0 & Hrow0 & ->)])].
    + congruence.
    + destruct (decide (e0 = e)) as [->|Hne].
      * rewrite lookup_insert_eq. by intros [= <-].
      * rewrite lookup_insert_ne by done. congruence.
    + rewrite (alter_creates_nothing _ _ _ _ Hnone). discriminate.
  - destruct (invoice_table env now (data_object event) w)
      as [->|(e0 & plan & _ & ->)]; [congruence|].
    rewrite (alter_creates_nothing _ _ _ _ Hnone). discriminate.
  - destruct (canceled_table env now (data_object event) w)
      as [->|(e0 & _ & ->)]; [congruence|].
    rewrite (alter_creates_nothing _ _ _ _ Hnone). discriminate.
  - cbn. congruence.
Qed.

Lemma dispatch_creates_on_checkout_only_witness :
  event_type (Sample.parse "checkout") = "checkout.session.completed" /\
  as_truthy (session_email (data_object (Sample.parse "checkout")))
  = Some "a@x.com" /\
  mkUsuario 1 "a@x.com" None (Some "cus_1") "ativo" (Some "Plano Anual")
    (Some "AAECAwQFBgcICQoLDA0ODxAREhMUFRYXGBkaGxwdHh8") Sample.t0
    (Some Sample.t0) (Some (DateTime 2024 4 15 43200)) None
  = mkUsuario (auto_increment Sample.empty_world) "a@x.com" None
      (customer (data_object (Sample.parse "checkout"))) "ativo"
      (session_plan (data_object (Sample.parse "checkout")))
      (Some (next_key Sample.env Sample.empty_world)) Sample.t0
      (Some Sample.t0) (Some (DATE_ADD Sample.t0 3 MONTH)) None.
Proof.
  apply (dispatch_creates_on_checkout_only Sample.env Sample.t0
           (Sample.parse "checkout") Sample.empty_world "a@x.com");
    reflexivity.
Defined.

(** ** [verifyApiKey] *)

Lemma split_on_no_sep sep s :
  ~ In sep (list_ascii_of_string s) -> split_on sep s = [s].
Proof.
  induction s as [|c s IH]; [done|]. cbn [list_ascii_of_string split_on].
  intros Hnot. destruct (Ascii.eqb_spec c sep) as [->|_].
  - destruct Hnot. by left.
  - rewrite IH; [done|]. intros Hin. apply Hnot. by right.
Qed.

Lemma split_on_sep sep k rest :
  ~ In sep (list_ascii_of_string k) ->
  split_on sep (k +:+ String sep rest) = k :: split_on sep rest.
Proof.
  induction k as [|c k IH]; simpl.
  - intros _. by rewrite Ascii.eqb_refl.
  - intros Hnot. destruct (Ascii.eqb_spec c sep) as [->|_].
    + destruct Hnot. by left.
    + rewrite IH; [done|]. intros Hin. apply Hnot. by right.
Qed.

Lemma append_empty (s : string) : s +:+ "" = s.
Proof.
  induction s as [|c s IH]; [done|].
  change (String c (s +:+ "") = String c s). by rewrite IH.
Qed.

(** A tail that does not run into the token: nothing, or something
    that starts with a space. *)
Lemma bearer_token k tail :
  ~ In " "%char (list_ascii_of_string k) ->
  tail = EmptyString \/ (exists rest, tail = String " " rest) ->
  split_on " " ("Bearer " +:+ k +:+ tail) !! 1%nat = Some k.
Proof.
  intros Hk Htail.
  change ("Bearer " +:+ k +:+ tail) with ("Bearer" +:+ String " " (k +:+ tail)).
  rewrite split_on_sep by (vm_compute; intuition discriminate).
  destruct Htail as [->|[rest ->]].
  - rewrite append_empty. by rewrite split_on_no_sep.
  - by rewrite split_on_sep.
Qed.

Lemma prefix_bearer x : String.prefix "Bearer " ("Bearer " +:+ x) = true.
Proof. by destruct x. Qed.

Ltac enter_bearer k tail :=
  unfold verifyApiKey;
  change (as_truthy (Some ("Bearer " +:+ k +:+ tail)))
    with (Some ("Bearer " +:+ k +:+ tail));
  cbv beta iota; rewrite prefix_bearer; cbn [negb].

Lemma select_by_api_key_rows (t : gmap string Usuario) k row :
  row ∈ filter (fun r => api_key r = Some k) (map snd (map_to_list t)) <->
  api_key row = Some k /\ exists e, t !! e = Some row.
Proof.
  rewrite list_elem_of_filter. change (map snd (map_to_list t)) with
    (snd <$> map_to_list t). rewrite list_elem_of_fmap.
  split; intros [Hk Hin]; (split; [done|]).
  - destruct Hin as ([e r] & -> & Hin). exists e.
    by apply elem_of_map_to_list.
  - destruct Hin as [e He]. exists (e, row). split; [done|].
    by apply elem_of_map_to_list.
Qed.

Lemma verifyApiKey_select env w k tail :
  ~ In " "%char (list_ascii_of_string k) ->
  tail = EmptyString \/ (exists rest, tail = String " " rest) ->
  db_fault env (queries w) = None ->
  verifyApiKey env (Some ("Bearer " +:+ k +:+ tail)) w =
  (Ok match filter (fun r => api_key r = Some k)
              (map snd (map_to_list (usuarios w))) with
      | [] => Reply (unauthorized "API key inválida")
      | user :: _ => Next user
      end,
   mkWorld (usuarios w) (auto_increment w) (console w) (draws w)
     (S (queries w)) (stripe_requests w)).
Proof.
  intros Hk Htail Hq. enter_bearer k tail.
  rewrite (bearer_token k tail Hk Htail).
  unfold try_catch, bind, pool_query, SELECT_by_api_key. rewrite Hq. cbn.
  by destruct (filter _ _).
Qed.

(** X10. The middleware turns a request away with 401 and without a
    database query when it has no Authorization header, an empty one,
    or one that does not start with [Bearer ] (case and the space
    included). *)
Theorem verifyApiKey_no_bearer env authorization w :
  as_truthy authorization = None \/
  (exists header,
     as_truthy authorization = Some header /\
     String.prefix "Bearer " header = false) ->
  verifyApiKey env authorization w =
  (Ok (Reply (unauthorized "API key não fornecida")), w).
Proof.
  unfold verifyApiKey. intros [->|(header & -> & ->)]; done.
Qed.

Lemma verifyApiKey_no_bearer_witness :
  verifyApiKey Sample.env None Sample.one_row
  = (Ok (Reply (unauthorized "API key não fornecida")), Sample.one_row) /\
  verifyApiKey Sample.env (Some "bearer tok") Sample.one_row
  = (Ok (Reply (unauthorized "API key não fornecida")), Sample.one_row) /\
  verifyApiKey Sample.env (Some "Bearertok") Sample.one_row
  = (Ok (Reply (unauthorized "API key não fornecida")), Sample.one_row).
Proof.
  split; [|split].
  - apply (verifyApiKey_no_bearer Sample.env None). by left.
  - apply (verifyApiKey_no_bearer Sample.env (Some "bearer tok")).
    right. by exists "bearer tok".
  - apply (verifyApiKey_no_bearer Sample.env (Some "Bearertok")).
    right. by exists "Bearertok".
Defined.

(** X11. With a header [Bearer k] (and possibly more text after a
    further space, which is ignored) and a working database, the
    middleware lets the request through exactly when some row holds the
    token [k], and the user it attaches is a row of the table with that
    token; otherwise it answers 401. The table is not changed. A failing
    query gives a 500 with the message. *)
Theorem verifyApiKey_bearer env w k tail :
  ~ In " "%char (list_ascii_of_string k) ->
  tail = EmptyString \/ (exists rest, tail = String " " rest) ->
  usuarios (snd (verifyApiKey env (Some ("Bearer " +:+ k +:+ tail)) w))
  = usuarios w /\
  match db_fault env (queries w) with
  | Some err =>
      fst (verifyApiKey env (Some ("Bearer " +:+ k +:+ tail)) w)
      = Ok (Reply (server_error err))
  | None =>
      (exists user e,
         fst (verifyApiKey env (Some ("Bearer " +:+ k +:+ tail)) w)
         = Ok (Next user) /\
         usuarios w !! e = Some user /\ api_key user = Some k) \/
      (fst (verifyApiKey env (Some ("Bearer " +:+ k +:+ tail)) w)
       = Ok (Reply (unauthorized "API key inválida")) /\
       forall e row, usuarios w !! e = Some row -> api_key row <> Some k)
  end.
Proof.
  intros Hk Htail.
  destruct (db_fault env (queries w)) as [err|] eqn:Hq.
  - enter_bearer k tail. unfold try_catch, bind, pool_query. by rewrite Hq.
  - rewrite (verifyApiKey_select env w k tail Hk Htail Hq). cbn.
    split; [done|].
    destruct (filter _ _) as [|user rest] eqn:Hrows.
    + right. split; [done|]. intros e row Hrow Hrk.
      assert (Hin : row ∈ filter (fun r => api_key r = Some k)
                      (map snd (map_to_list (usuarios w))))
        by (apply select_by_api_key_rows; eauto).
      rewrite Hrows in Hin. by apply not_elem_of_nil in Hin.
    + left.
      assert (Hin : user ∈ filter (fun r => api_key r = Some k)
                      (map snd (map_to_list (usuarios w))))
        by (rewrite Hrows; apply list_elem_of_here).
      apply select_by_api_key_rows in Hin as [Huk [e He]]. eauto.
Qed.

Lemma verifyApiKey_bearer_witness :
  fst (verifyApiKey Sample.env (Some "Bearer tok") Sample.one_row)
  = Ok (Next Sample.old_row) /\
  fst (verifyApiKey Sample.env (Some "Bearer tok and more") Sample.one_row)
  = Ok (Next Sample.old_row) /\
  fst (verifyApiKey Sample.env (Some "Bearer other") Sample.one_row)
  = Ok (Reply (unauthorized "API key inválida")) /\
  fst (verifyApiKey Faulty.db_down (Some "Bearer tok") Sample.one_row)
  = Ok (Reply (server_error "connect ECONNREFUSED")).
Proof.
  assert (Hno : forall k, existsb (Ascii.eqb " ") (list_ascii_of_string k) = false ->
                          ~ In " "%char (list_ascii_of_string k)).
  { intros k Hk Hin. apply not_true_iff_false in Hk. apply Hk.
    apply existsb_exists. exists " "%char. split; [done|]. apply Ascii.eqb_refl. }
  destruct (verifyApiKey_bearer Sample.env Sample.one_row "tok" ""
              (Hno "tok" eq_refl) (or_introl eq_refl)) as [_ H1].
  destruct (verifyApiKey_bearer Sample.env Sample.one_row "tok" " and more"
              (Hno "tok" eq_refl) (or_intror (ex_intro _ "and more" eq_refl)))
    as [_ H2].
  destruct (verifyApiKey_bearer Sample.env Sample.one_row "other" ""
              (Hno "other" eq_refl) (or_introl eq_refl)) as [_ H3].
  destruct (verifyApiKey_bearer Faulty.db_down Sample.one_row "tok" ""
              (Hno "tok" eq_refl) (or_introl eq_refl)) as [_ H4].
  repeat split; reflexivity || exact H4.
Defined.

Lemma next_key_no_space env w :
  ~ In " "%char (list_ascii_of_string (next_key env w)).
Proof.
  intros Hspace.
  pose proof (encode_url_safe (next_bytes env w)) as Hsafe.
  unfold url_safe in Hsafe. rewrite Forall_forall in Hsafe.
  apply list_elem_of_In, Hsafe in Hspace. revert Hspace.
  vm_compute. intuition discriminate.
Qed.

(** X12. The token issued at a checkout opens the door. After a checkout
    that created the row of an email (no query failing), a request with
    [Authorization: Bearer <that token>] passes the middleware, and if
    no older row happened to hold the same token, the user attached to
    the request is the new row. *)
Theorem issued_token_authenticates env now session w e :
  as_truthy (session_email session) = Some e ->
  usuarios w !! e = None ->
  db_fault env (queries w) = None ->
  db_fault env (S (queries w)) = None ->
  db_fault env (S (S (queries w))) = None ->
  exists user,
    fst (verifyApiKey env (Some ("Bearer " +:+ next_key env w))
           (snd (handleCheckoutSessionCompleted env now session w)))
    = Ok (Next user) /\
    api_key user = Some (next_key env w) /\
    ((forall e' row, usuarios w !! e' = Some row ->
                     api_key row <> Some (next_key env w)) ->
     usuarios (snd (handleCheckoutSessionCompleted env now session w)) !! e
     = Some user).
Proof.
  intros He Hnone Hq1 Hq2 Hq3.
  rewrite (checkout_insert _ _ _ _ _ He Hq1 Hq2 Hnone). cbn [snd].
  replace ("Bearer " +:+ next_key env w)
    with ("Bearer " +:+ next_key env w +:+ "") by (by rewrite append_empty).
  match goal with
  | |- context [verifyApiKey env _ ?w1] =>
      rewrite (verifyApiKey_select env w1 (next_key env w) ""
                 (next_key_no_space env w) (or_introl eq_refl) Hq3)
  end.
  cbn [fst usuarios].
  set (new := mkUsuario _ _ _ _ _ _ _ _ _ _ _).
  destruct (filter _ _) as [|user rest] eqn:Hrows.
  - assert (Hin : new ∈ filter (fun r => api_key r = Some (next_key env w))
                    (map snd (map_to_list (<[e:=new]> (usuarios w))))).
    { apply select_by_api_key_rows. split; [done|].
      exists e. apply lookup_insert_eq. }
    rewrite Hrows in Hin. by apply not_elem_of_nil in Hin.
  - assert (Hin : user ∈ filter (fun r => api_key r = Some (next_key env w))
                    (map snd (map_to_list (<[e:=new]> (usuarios w)))))
      by (rewrite Hrows; apply list_elem_of_here).
    apply select_by_api_key_rows in Hin as [Hkey [e' He']].
    exists user. split; [done|]. split; [done|].
    intros Hfresh. destruct (decide (e = e')) as [<-|Hne]; [done|].
    rewrite lookup_insert_ne in He' by done.
    by destruct (Hfresh _ _ He').
Qed.

Lemma issued_token_authenticates_witness :
  exists user,
    fst (verifyApiKey Sample.env
           (Some ("Bearer " +:+ next_key Sample.env Sample.empty_world))
           (snd (handleCheckoutSessionCompleted Sample.env Sample.t0
                   Sample.checkout_session Sample.empty_world)))
    = Ok (Next user) /\
    api_key user = Some "AAECAwQFBgcICQoLDA0ODxAREhMUFRYXGBkaGxwdHh8" /\
    email user = "a@x.com".
Proof.
  destruct (issued_token_authenticates Sample.env Sample.t0
              Sample.checkout_session Sample.empty_world "a@x.com"
              eq_refl eq_refl eq_refl eq_refl eq_refl)
    as (user & Hnext & Hkey & Hnew).
  exists user. split; [exact Hnext|]. split; [exact Hkey|].
  assert (Hrow : usuarios (snd (handleCheckoutSessionCompleted Sample.env
                   Sample.t0 Sample.checkout_session Sample.empty_world))
                 !! "a@x.com" = Some user).
  { apply Hnew. intros e' row Hrow.
    change (usuarios Sample.empty_world) with (∅ : gmap string Usuario) in Hrow.
    rewrite lookup_empty in Hrow. discriminate Hrow. }
  injection Hrow as <-. reflexivity.
Defined.

(** ** The endpoints that read the table *)

Lemma select_by_email_run env e w :
  db_fault env (queries w) = None ->
  pool_query env (Sql.SELECT_by_email e) w =
  (Ok match usuarios w !! e with
      | Some row => [row]
      | None => []
      end,
   mkWorld (usuarios w) (auto_increment w) (console w) (draws w)
     (S (queries w)) (stripe_requests w)).
Proof.
  intros Hq. unfold pool_query, Sql.SELECT_by_email. rewrite Hq. cbn.
  by destruct (usuarios w !! e).
Qed.

Lemma verify_user_run env e w :
  str_empty e = false ->
  db_fault env (queries w) = None ->
  fst (verify_user env (Some e) w) =
  Ok match usuarios w !! e with
     | Some row =>
         mkResponse 200
           (Json [("success", JBool true); ("exists", JBool true);
                  ("status", JStr (status row));
                  ("customerId", json_of (stripe_customer_id row))])
     | None =>
         mkResponse 200 (Json [("success", JBool true); ("exists", JBool false)])
     end.
Proof.
  intros He Hq. unfold verify_user, try_catch, bind.
  rewrite (as_truthy_nonempty _ He), (select_by_email_run _ _ _ Hq).
  by destruct (usuarios w !! e).
Qed.

(** X13. What [POST /api/verify-user] shows follows the events. After a
    checkout for an email that went through (row created or updated),
    it answers [exists: true], status [ativo] and the customer id of the
    session; after a cancellation that went through for an email with a
    row, it answers status [inativo] and the customer id the row had. *)
Theorem verify_user_after_events env now w e :
  str_empty e = false ->
  (forall session,
     as_truthy (session_email session) = Some e ->
     db_fault env (queries w) = None ->
     db_fault env (S (queries w)) = None ->
     db_fault env (S (S (queries w))) = None ->
     fst (verify_user env (Some e)
            (snd (handleCheckoutSessionCompleted env now session w)))
     = Ok (mkResponse 200
             (Json [("success", JBool true); ("exists", JBool true);
                    ("status", JStr "ativo");
                    ("customerId", json_of (customer session))]))) /\
  (forall sub customerId cust row,
     as_truthy (customer sub) = Some customerId ->
     customers_retrieve env customerId = inl cust ->
     customer_email cust = Some e ->
     usuarios w !! e = Some row ->
     db_fault env (queries w) = None ->
     db_fault env (S (queries w)) = None ->
     fst (verify_user env (Some e)
            (snd (handleSubscriptionCanceled env now sub w)))
     = Ok (mkResponse 200
             (Json [("success", JBool true); ("exists", JBool true);
                    ("status", JStr "inativo");
                    ("customerId", json_of (stripe_customer_id row))]))).
Proof.
  intros Hne. split.
  - intros session He Hq1 Hq2 Hq3.
    destruct (usuarios w !! e) as [row|] eqn:Hrow.
    + rewrite (checkout_update _ _ _ _ _ _ He Hq1 Hq2 Hrow). cbn [snd].
      rewrite verify_user_run by done. cbn [usuarios].
      by rewrite lookup_alter_eq, Hrow.
    + rewrite (checkout_insert _ _ _ _ _ He Hq1 Hq2 Hrow). cbn [snd].
      rewrite verify_user_run by done. cbn [usuarios].
      by rewrite lookup_insert_eq.
  - intros sub cid cust row Hc Hcust Hemail Hrow Hq1 Hq2.
    rewrite (canceled_update _ _ _ _ _ _ Hc Hcust Hq1), Hemail. cbn [snd].
    rewrite verify_user_run by done. cbn [usuarios].
    by rewrite lookup_alter_eq, Hrow.
Qed.

Lemma verify_user_after_events_witness :
  fst (verify_user Sample.env (Some "a@x.com")
         (snd (handleCheckoutSessionCompleted Sample.env Sample.t0
                 Sample.checkout_session Sample.empty_world)))
  = Ok (mkResponse 200
          (Json [("success", JBool true); ("exists", JBool true);
                 ("status", JStr "ativo"); ("customerId", JStr "cus_1")])) /\
  fst (verify_user Sample.env (Some "a@x.com")
         (snd (handleSubscriptionCanceled Sample.env Sample.t0
                 Sample.invoice Sample.one_row)))
  = Ok (mkResponse 200
          (Json [("success", JBool true); ("exists", JBool true);
                 ("status", JStr "inativo"); ("customerId", JNull)])).
Proof.
  destruct (verify_user_after_events Sample.env Sample.t0 Sample.empty_world
              "a@x.com" eq_refl) as [Hcheckout _].
  destruct (verify_user_after_events Sample.env Sample.t0 Sample.one_row
              "a@x.com" eq_refl) as [_ Hcancel].
  split.
  - apply (Hcheckout Sample.checkout_session); reflexivity.
  - apply (Hcancel Sample.invoice "cus_1"
             {| customer_id := "cus_1"; customer_email := Some "a@x.com" |}
             Sample.old_row); reflexivity.
Defined.

(** X14. The edges of [POST /api/verify-user]: without an email (or with
    an empty one) it answers 400 and asks the database nothing; for an
    email without a row it answers 200 with [exists: false]; when the
    query fails it answers 500 with the message and logs the error. It
    never writes. *)
Theorem verify_user_edges env email w :
  (as_truthy email = None ->
   verify_user env email w = (Ok (bad_request "Email não fornecido"), w)) /\
  (forall e,
     as_truthy email = Some e ->
     usuarios (snd (verify_user env email w)) = usuarios w /\
     match db_fault env (queries w) with
     | Some err =>
         fst (verify_user env email w) = Ok (server_error err) /\
         console (snd (verify_user env email w))
         = console w ++ [Error "Erro ao verificar usuário:" err]
     | None =>
         usuarios w !! e = None ->
         fst (verify_user env email w)
         = Ok (mkResponse 200
                 (Json [("success", JBool true); ("exists", JBool false)]))
     end).
Proof.
  split.
  - intros He. unfold verify_user, try_catch. by rewrite He.
  - intros e He. unfold verify_user, try_catch, bind. rewrite He.
    destruct (db_fault env (queries w)) as [err|] eqn:Hq.
    + unfold pool_query. by rewrite Hq.
    + rewrite (select_by_email_run _ _ _ Hq).
      destruct (usuarios w !! e); by cbn.
Qed.

Lemma verify_user_edges_witness :
  verify_user Sample.env (Some "") Sample.one_row
  = (Ok (bad_request "Email não fornecido"), Sample.one_row) /\
  fst (verify_user Sample.env (Some "nobody@x.com") Sample.one_row)
  = Ok (mkResponse 200 (Json [("success", JBool true); ("exists", JBool false)])) /\
  fst (verify_user Faulty.db_down (Some "a@x.com") Sample.one_row)
  = Ok (server_error "connect ECONNREFUSED").
Proof.
  destruct (verify_user_edges Sample.env (Some "") Sample.one_row) as [Hnone _].
  destruct (verify_user_edges Sample.env (Some "nobody@x.com") Sample.one_row)
    as [_ Hmiss].
  destruct (verify_user_edges Faulty.db_down (Some "a@x.com") Sample.one_row)
    as [_ Hdown].
  split; [apply Hnone; reflexivity|]. split.
  - destruct (Hmiss "nobody@x.com" eq_refl) as [_ H]. apply H. reflexivity.
  - destruct (Hdown "a@x.com" eq_refl) as [_ [H _]]. exact H.
Defined.

Lemma local_part local domain :
  ~ In "@"%char (list_ascii_of_string local) ->
  split_on "@" (local +:+ String "@" domain) !! 0%nat = Some local.
Proof. intros Hlocal. by rewrite split_on_sep. Qed.

Lemma address_nonempty local domain :
  str_empty (local +:+ String "@" domain) = false.
Proof. by destruct local. Qed.

(** X15. The name that [GET /api/user-info] shows. For an address
    [local@domain] whose row has no name, the name is [local], the part
    before the first [@]; this is the case of every row once all rows
    are as the handlers make them, since no handler writes a name. The
    other fields are those of the row. An address without a row gets a
    200 with [success: false]. *)
Theorem user_info_display_name env w local domain :
  ~ In "@"%char (list_ascii_of_string local) ->
  all_reconciled w ->
  keys_wf w ->
  db_fault env (queries w) = None ->
  fst (user_info env (Some (local +:+ String "@" domain)) w) =
  Ok match usuarios w !! (local +:+ String "@" domain) with
     | Some row =>
         InfoUser
           {| info_email := local +:+ String "@" domain;
              info_nome := local;
              info_status := status row;
              info_plano := plano row;
              info_dataAssinatura := data_assinatura row;
              info_dataRenovacao := data_renovacao row |}
     | None =>
         InfoOther
           (mkResponse 200
              (Json [("success", JBool false);
                     ("error", JStr "Usuário não encontrado")]))
     end.
Proof.
  intros Hlocal Hall [Hown _] Hq. unfold user_info, try_catch, bind.
  rewrite (as_truthy_nonempty _ (address_nonempty local domain)).
  rewrite (select_by_email_run _ _ _ Hq).
  destruct (usuarios w !! (local +:+ String "@" domain)) as [row|] eqn:Hrow;
    [|done].
  cbn. destruct (Hown _ _ Hrow) as [Hemail _].
  destruct (Hall _ _ Hrow) as (_ & _ & _ & _ & Hnome).
  unfold display_name. rewrite Hnome, Hemail. cbn [as_truthy].
  by rewrite (local_part local domain Hlocal).
Qed.

Lemma user_info_display_name_witness :
  fst (user_info Sample.env (Some "a@x.com")
         (snd (handleCheckoutSessionCompleted Sample.env Sample.t0
                 Sample.checkout_session Sample.empty_world))) =
  Ok (InfoUser
        {| info_email := "a@x.com";
           info_nome := "a";
           info_status := "ativo";
           info_plano := Some "Plano Anual";
           info_dataAssinatura := Some Sample.t0;
           info_dataRenovacao := Some (DateTime 2024 4 15 43200) |}).
Proof.
  rewrite (user_info_display_name Sample.env _ "a" "x.com").
  - reflexivity.
  - vm_compute. intuition discriminate.
  - apply (all_reconciled_step Sample.env Sample.empty_world).
    + apply checkout_world_step.
    + by apply all_reconciled_empty.
  - apply (keys_wf_step Sample.env Sample.empty_world).
    + apply checkout_world_step.
    + by apply keys_wf_empty.
  - reflexivity.
Defined.

(** X16. The token that [GET /api/user/api-key] hands out is the one
    issued at checkout, for good: after a checkout that created the row
    of an email, and after any further deliveries whatever, the endpoint
    answers with that very token. *)
Theorem user_api_key_after_checkout env now session w e later :
  as_truthy (session_email session) = Some e ->
  usuarios w !! e = None ->
  db_fault env (queries w) = None ->
  db_fault env (S (queries w)) = None ->
  db_fault env
    (queries (replay env later
                (snd (handleCheckoutSessionCompleted env now session w))))
  = None ->
  fst (user_api_key env (Some e)
         (replay env later
            (snd (handleCheckoutSessionCompleted env now session w))))
  = Ok (mkResponse 200
          (Json [("success", JBool true); ("apiKey", JStr (next_key env w))])).
Proof.
  intros He Hnone Hq1 Hq2 Hq3.
  destruct (as_truthy_Some _ _ He) as [_ Hne].
  assert (Hrow : exists row,
            usuarios (snd (handleCheckoutSessionCompleted env now session w)) !! e
            = Some row /\ api_key row = Some (next_key env w)).
  { rewrite (checkout_insert _ _ _ _ _ He Hq1 Hq2 Hnone). cbn.
    rewrite lookup_insert_eq. eauto. }
  destruct Hrow as (row & Hrow & Hkey).
  destruct (replay_keeps_token env later _ e row _ Hrow Hkey
              (next_key_nonempty env w)) as (row' & Hrow' & Hkey').
  unfold user_api_key, try_catch, bind.
  rewrite (as_truthy_nonempty _ Hne), (select_by_email_run _ _ _ Hq3), Hrow'.
  by rewrite Hkey', (as_truthy_nonempty _ (next_key_nonempty env w)).
Qed.

Lemma user_api_key_after_checkout_witness :
  fst (user_api_key Sample.env (Some "a@x.com")
         (replay Sample.env
            [(Sample.t1, Sample.parse "deleted");
             (Sample.t1, Sample.parse "checkout")]
            (snd (handleCheckoutSessionCompleted Sample.env Sample.t0
                    Sample.checkout_session Sample.empty_world))))
  = Ok (mkResponse 200
          (Json [("success", JBool true);
                 ("apiKey", JStr "AAECAwQFBgcICQoLDA0ODxAREhMUFRYXGBkaGxwdHh8")])).
Proof.
  apply (user_api_key_after_checkout Sample.env Sample.t0
           Sample.checkout_session Sample.empty_world "a@x.com");
    reflexivity.
Defined.

(** X17. [GET /api/user/api-key] gives no token away for an unknown
    email or for a row whose token is empty or [NULL]: the answer is
    [success: false] with a 200, and without an email it is a 400 that
    costs no query. *)
Theorem user_api_key_without_token env email w :
  (as_truthy email = None ->
   user_api_key env email w = (Ok (bad_request "Email não fornecido"), w)) /\
  (forall e,
     as_truthy email = Some e ->
     db_fault env (queries w) = None ->
     (usuarios w !! e = None \/
      exists row, usuarios w !! e = Some row /\ as_truthy (api_key row) = None) ->
     fst (user_api_key env email w)
     = Ok (mkResponse 200
             (Json [("success", JBool false);
                    ("error", JStr "API Key não encontrada")]))).
Proof.
  split.
  - intros He. unfold user_api_key, try_catch. by rewrite He.
  - intros e He Hq Hrow. unfold user_api_key, try_catch, bind.
    rewrite He, (select_by_email_run _ _ _ Hq).
    destruct Hrow as [->|(row & -> & Hkey)]; [done|]. cbn. by rewrite Hkey.
Qed.

Lemma user_api_key_without_token_witness :
  user_api_key Sample.env None Sample.one_row
  = (Ok (bad_request "Email não fornecido"), Sample.one_row) /\
  fst (user_api_key Sample.env (Some "nobody@x.com") Sample.one_row)
  = Ok (mkResponse 200
          (Json [("success", JBool false);
                 ("error", JStr "API Key não encontrada")])).
Proof.
  destruct (user_api_key_without_token Sample.env None Sample.one_row)
    as [Hnone _].
  destruct (user_api_key_without_token Sample.env (Some "nobody@x.com")
              Sample.one_row) as [_ Hmiss].
  split; [apply Hnone; reflexivity|].
  apply (Hmiss "nobody@x.com"); [reflexivity|reflexivity|by left].
Defined.

(** ** The endpoints that talk to Stripe *)

(** X18. [POST /api/create-customer] creates a Stripe customer only when
    Stripe lists none for the email. Without an email it answers 400 and
    sends nothing; when Stripe lists a customer, it answers with the id
    of the first one and sends no create request; when the list is
    empty, it sends exactly one create request (the email, description
    [Cliente PayoutHub]) and answers with the id Stripe gives, or with a
    500 carrying Stripe's message when the creation fails; when the
    listing itself fails it answers 500 and creates nothing. *)
Theorem create_customer_spec env email w :
  (truthy email = false ->
   create_customer env email w = (Ok (bad_request "Email não fornecido"), w)) /\
  (truthy email = true ->
   match customers_list env email with
   | inl (c :: _) =>
       fst (create_customer env email w)
       = Ok (mkResponse 200
               (Json [("success", JBool true); ("customerId", JStr (customer_id c))])) /\
       stripe_requests (snd (create_customer env email w)) = stripe_requests w
   | inl [] =>
       stripe_requests (snd (create_customer env email w))
       = stripe_requests w ++ [CreateCustomer email "Cliente PayoutHub"] /\
       fst (create_customer env email w)
       = Ok match stripe_create env (CreateCustomer email "Cliente PayoutHub") with
            | inl created =>
                mkResponse 200
                  (Json [("success", JBool true); ("customerId", JStr created)])
            | inr err => server_error err
            end
   | inr err =>
       fst (create_customer env email w) = Ok (server_error err) /\
       stripe_requests (snd (create_customer env email w)) = stripe_requests w
   end).
Proof.
  split; intros Hemail; unfold create_customer, try_catch; rewrite Hemail;
    [done|]. cbn [negb]. unfold bind, lift.
  destruct (customers_list env email) as [[|c cs]|err]; cbn; [|done..].
  unfold stripe_request.
  by destruct (stripe_create env (CreateCustomer email "Cliente PayoutHub")).
Qed.

Lemma create_customer_spec_witness :
  create_customer Sample.env JNull Sample.empty_world
  = (Ok (bad_request "Email não fornecido"), Sample.empty_world) /\
  (fst (create_customer Faulty.known_customer (JStr "a@x.com") Sample.empty_world)
   = Ok (mkResponse 200
           (Json [("success", JBool true); ("customerId", JStr "cus_9")])) /\
   stripe_requests
     (snd (create_customer Faulty.known_customer (JStr "a@x.com")
             Sample.empty_world)) = []) /\
  stripe_requests
    (snd (create_customer Sample.env (JStr "a@x.com") Sample.empty_world))
  = [] ++ [CreateCustomer (JStr "a@x.com") "Cliente PayoutHub"].
Proof.
  destruct (create_customer_spec Sample.env JNull Sample.empty_world)
    as [Hnone _].
  destruct (create_customer_spec Faulty.known_customer (JStr "a@x.com")
              Sample.empty_world) as [_ Hknown].
  destruct (create_customer_spec Sample.env (JStr "a@x.com")
              Sample.empty_world) as [_ Hnew].
  split; [apply Hnone; reflexivity|].
  split; [apply Hknown; reflexivity|].
  apply Hnew. reflexivity.
Defined.

(** X19. A checkout session is requested only after its product and its
    price exist. When Stripe refuses the product, nothing else is sent;
    when it refuses the price, no customer and no session request
    follow. In both cases the answer is a 500 with Stripe's message and
    the error is logged. *)
Theorem checkout_session_stops_at_failure env req w amount interval count name :
  plan_of_planId (body_planId req) = Some (amount, interval, count, name) ->
  (forall err,
     stripe_create env
       (CreateProduct name ("Assinatura " +:+ name +:+ " do PayoutHub"))
     = inr err ->
     create_checkout_session env req w =
     (Ok (server_error err),
      mkWorld (usuarios w) (auto_increment w)
        (console w ++ [Error "Erro ao criar sessão de checkout:" err])
        (draws w) (queries w)
        (stripe_requests w
           ++ [CreateProduct name ("Assinatura " +:+ name +:+ " do PayoutHub")]))) /\
  (forall product err,
     stripe_create env
       (CreateProduct name ("Assinatura " +:+ name +:+ " do PayoutHub"))
     = inl product ->
     stripe_create env (CreatePrice product amount "brl" interval count)
     = inr err ->
     create_checkout_session env req w =
     (Ok (server_error err),
      mkWorld (usuarios w) (auto_increment w)
        (console w ++ [Error "Erro ao criar sessão de checkout:" err])
        (draws w) (queries w)
        ((stripe_requests w
            ++ [CreateProduct name ("Assinatura " +:+ name +:+ " do PayoutHub")])
           ++ [CreatePrice product amount "brl" interval count]))).
Proof.
  intros Hplan. destruct (plan_of_planId_Some _ _ Hplan) as [Htruthy _].
  split.
  - intros err Hp.
    unfold create_checkout_session, try_catch, checkout_session_try.
    rewrite Htruthy, Hplan. cbn. unfold bind, stripe_request. cbn.
    by rewrite Hp.
  - intros product err Hp Hprice.
    unfold create_checkout_session, try_catch, checkout_session_try.
    rewrite Htruthy, Hplan. cbn. unfold bind, stripe_request. cbn.
    rewrite Hp. cbn. by rewrite Hprice.
Qed.

Lemma checkout_session_stops_at_failure_witness :
  create_checkout_session Faulty.no_prices
    (Sample.checkout_request (JStr "anual")) Sample.empty_world =
  (Ok (server_error "Invalid currency"),
   mkWorld ∅ 1 [Error "Erro ao criar sessão de checkout:" "Invalid currency"]
     0 0
     [CreateProduct "Plano Anual" "Assinatura Plano Anual do PayoutHub";
      CreatePrice "prod_1" 18000 "brl" "year" 1]).
Proof.
  destruct (checkout_session_stops_at_failure Faulty.no_prices
              (Sample.checkout_request (JStr "anual")) Sample.empty_world
              18000%Z "year" 1%Z "Plano Anual" eq_refl) as [_ Hprice].
  apply (Hprice "prod_1" "Invalid currency"); reflexivity.
Defined.

(** X20. A checkout session that goes through. With a known plan, no
    email in the request and Stripe accepting product, price and
    session, the answer is 200 with the session id that Stripe gave, and
    exactly three requests were sent, in this order: the product, its
    price, and a session in mode [subscription] for one unit of that
    price, carrying the plan name in its metadata and no customer. With
    an email for which Stripe lists a customer, the session is for that
    customer and no customer is created. *)
Theorem checkout_session_created env req w amount interval count name
    product price session :
  plan_of_planId (body_planId req) = Some (amount, interval, count, name) ->
  stripe_create env
    (CreateProduct name ("Assinatura " +:+ name +:+ " do PayoutHub"))
  = inl product ->
  stripe_create env (CreatePrice product amount "brl" interval count)
  = inl price ->
  forall customer,
    (truthy (body_email req) = false /\ customer = None) \/
    (truthy (body_email req) = true /\
     exists c rest, customers_list env (body_email req) = inl (c :: rest) /\
                    customer = Some (customer_id c)) ->
    stripe_create env
      (CreateSession
         (req_protocol req +:+ "://" +:+ req_host req
            +:+ "/checkout-success?session_id={CHECKOUT_SESSION_ID}")
         (req_protocol req +:+ "://" +:+ req_host req +:+ "/")
         "subscription" price 1 name customer)
    = inl session ->
    create_checkout_session env req w =
    (Ok (mkResponse 200
           (Json [("success", JBool true); ("sessionId", JStr session)])),
     mkWorld (usuarios w) (auto_increment w) (console w) (draws w) (queries w)
       (((stripe_requests w
            ++ [CreateProduct name ("Assinatura " +:+ name +:+ " do PayoutHub")])
           ++ [CreatePrice product amount "brl" interval count])
          ++ [CreateSession
                (req_protocol req +:+ "://" +:+ req_host req
                   +:+ "/checkout-success?session_id={CHECKOUT_SESSION_ID}")
                (req_protocol req +:+ "://" +:+ req_host req +:+ "/")
                "subscription" price 1 name customer])).
Proof.
  intros Hplan Hp Hprice customer Hcustomer Hsession.
  destruct (plan_of_planId_Some _ _ Hplan) as [Htruthy _].
  unfold create_checkout_session, try_catch, checkout_session_try.
  rewrite Htruthy, Hplan. cbn. unfold bind, stripe_request. cbn.
  rewrite Hp. cbn. rewrite Hprice. cbn.
  destruct Hcustomer as [[-> ->]|(-> & c & rest & Hlist & ->)]; cbn.
  - by rewrite Hsession.
  - unfold lift. rewrite Hlist. cbn. by rewrite Hsession.
Qed.

Lemma checkout_session_created_witness :
  fst (create_checkout_session Sample.env
         (Sample.checkout_request (JStr "trimestral")) Sample.empty_world)
  = Ok (mkResponse 200
          (Json [("success", JBool true); ("sessionId", JStr "cs_1")])) /\
  stripe_requests
    (snd (create_checkout_session Sample.env
            (Sample.checkout_request (JStr "trimestral")) Sample.empty_world))
  = [CreateProduct "Plano Trimestral" "Assinatura Plano Trimestral do PayoutHub";
     CreatePrice "prod_1" 7500 "brl" "month" 3;
     CreateSession
       "https://example.test/checkout-success?session_id={CHECKOUT_SESSION_ID}"
       "https://example.test/" "subscription" "price_1" 1 "Plano Trimestral"
       None].
Proof.
  rewrite (checkout_session_created Sample.env
             (Sample.checkout_request (JStr "trimestral")) Sample.empty_world
             7500%Z "month" 3%Z "Plano Trimestral" "prod_1" "price_1" "cs_1"
             eq_refl eq_refl eq_refl None (or_introl (conj eq_refl eq_refl))
             eq_refl).
  split; reflexivity.
Defined.

(** ** What is never written *)

Lemma alter_keeps (f : Usuario -> Usuario) {A} (g : Usuario -> A) (e0 e : string)
    (t : gmap string Usuario) (row : Usuario) :
  (forall r, g (f r) = g r) ->
  t !! e = Some row ->
  exists row', alter f e0 t !! e = Some row' /\ g row' = g row.
Proof.
  intros Hg Hrow. destruct (decide (e0 = e)) as [->|Hne].
  - rewrite lookup_alter_eq, Hrow. cbn. eauto.
  - rewrite lookup_alter_ne by done. eauto.
Qed.

(** X21. A paid invoice renews and nothing more: whatever the event,
    the answers of Stripe and the faults, [handleInvoicePaid] leaves in
    every row the id, email, name, customer id, token, creation date
    and subscription date as they were. *)
Theorem invoice_paid_frame env now invoice w e row :
  usuarios w !! e = Some row ->
  exists row',
    usuarios (snd (handleInvoicePaid env now invoice w)) !! e = Some row' /\
    (id row', email row', nome row', stripe_customer_id row', api_key row',
     data_criacao row', data_assinatura row')
    = (id row, email row, nome row, stripe_customer_id row, api_key row,
       data_criacao row, data_assinatura row).
Proof.
  intros Hrow.
  destruct (invoice_table env now invoice w) as [->|(e0 & plan & _ & ->)];
    [eauto|].
  by apply (alter_keeps _
              (fun r => (id r, email r, nome r, stripe_customer_id r, api_key r,
                         data_criacao r, data_assinatura r))).
Qed.

Lemma invoice_paid_frame_witness :
  exists row',
    usuarios (snd (handleInvoicePaid Sample.env Sample.t1 Sample.invoice
                     Sample.one_row)) !! "a@x.com" = Some row' /\
    (id row', email row', nome row', stripe_customer_id row', api_key row',
     data_criacao row', data_assinatura row')
    = (1%Z, "a@x.com", None, None, Some "tok", DateTime 2023 12 1 0, None).
Proof.
  apply (invoice_paid_frame Sample.env Sample.t1 Sample.invoice Sample.one_row
           "a@x.com" Sample.old_row).
  reflexivity.
Defined.

(** X22. A cancellation that cannot be carried out changes no row. When
    Stripe does not return the customer, no query is issued and one
    error line is logged; when the UPDATE fails, the table is as before
    and the error is logged. The handler ends normally either way. *)
Theorem subscription_canceled_failure env now sub w customerId :
  as_truthy (customer sub) = Some customerId ->
  (forall err,
     customers_retrieve env customerId = inr err ->
     handleSubscriptionCanceled env now sub w =
     (Ok tt,
      add_log (Error "Erro ao processar cancelamento da assinatura:" err) w)) /\
  (forall cust err,
     customers_retrieve env customerId = inl cust ->
     db_fault env (queries w) = Some err ->
     handleSubscriptionCanceled env now sub w =
     (Ok tt,
      mkWorld (usuarios w) (auto_increment w)
        (console w
           ++ [Error "Erro ao processar cancelamento da assinatura:" err])
        (draws w) (S (queries w)) (stripe_requests w))).
Proof.
  intros Hc. split.
  - intros err Hcust. enter_canceled Hc. by rewrite Hcust.
  - intros cust err Hcust Hq. enter_canceled Hc. rewrite Hcust. cbn.
    unfold pool_query. by rewrite Hq.
Qed.

Lemma subscription_canceled_failure_witness :
  handleSubscriptionCanceled Faulty.db_down Sample.t0 Sample.invoice
    Sample.one_row =
  (Ok tt,
   mkWorld (usuarios Sample.one_row) 2
     [Error "Erro ao processar cancelamento da assinatura:"
        "connect ECONNREFUSED"] 0 1 []).
Proof.
  destruct (subscription_canceled_failure Faulty.db_down Sample.t0
              Sample.invoice Sample.one_row "cus_1" eq_refl) as [_ Hdb].
  apply (Hdb {| customer_id := "cus_1"; customer_email := Some "a@x.com" |}
           "connect ECONNREFUSED"); reflexivity.
Defined.

(** X23. The middleware and the endpoints that read the table or talk
    to Stripe never write to the table: whatever the request, the
    answers of Stripe and the faults of the database, the rows and the
    id counter are after the call what they were before. *)
Theorem endpoints_never_write env w :
  (forall authorization,
     usuarios (snd (verifyApiKey env authorization w)) = usuarios w /\
     auto_increment (snd (verifyApiKey env authorization w)) = auto_increment w) /\
  (forall address,
     usuarios (snd (verify_user env address w)) = usuarios w /\
     auto_increment (snd (verify_user env address w)) = auto_increment w) /\
  (forall address,
     usuarios (snd (user_info env address w)) = usuarios w /\
     auto_increment (snd (user_info env address w)) = auto_increment w) /\
  (forall address,
     usuarios (snd (user_api_key env address w)) = usuarios w /\
     auto_increment (snd (user_api_key env address w)) = auto_increment w) /\
  (forall address,
     usuarios (snd (create_customer env address w)) = usuarios w /\
     auto_increment (snd (create_customer env address w)) = auto_increment w) /\
  (forall req,
     usuarios (snd (create_checkout_session env req w)) = usuarios w /\
     auto_increment (snd (create_checkout_session env req w)) = auto_increment w).
Proof.
  repeat split.
  1,2: unfold verifyApiKey; destruct (as_truthy authorization) as [h|]; [|done];
    destruct (negb (String.prefix "Bearer " h)); [done|];
    unfold try_catch, bind, pool_query, SELECT_by_api_key;
    destruct (db_fault env (queries w)); [done|];
    destruct (split_on " " h !! 1%nat); cbn; [|done];
    by destruct (filter _ _).
  1,2: unfold verify_user, try_catch, bind, pool_query, Sql.SELECT_by_email;
    destruct (as_truthy address); [|done];
    destruct (db_fault env (queries w)); [done|];
    cbn; by destruct (usuarios w !! _).
  1,2: unfold user_info, try_catch, bind, pool_query, Sql.SELECT_by_email;
    destruct (as_truthy address); [|done];
    destruct (db_fault env (queries w)); [done|];
    cbn; by destruct (usuarios w !! _).
  1,2: unfold user_api_key, try_catch, bind, pool_query, Sql.SELECT_by_email;
    destruct (as_truthy address); [|done];
    destruct (db_fault env (queries w)); [done|];
    cbn; destruct (usuarios w !! _) as [row|]; [|done];
    cbn; by destruct (as_truthy (api_key row)).
  1,2: unfold create_customer, try_catch, bind, lift, stripe_request;
    destruct (truthy address); [|done]; cbn;
    destruct (customers_list env address) as [[|c cs]|err]; cbn; [|done..];
    by destruct (stripe_create env _).
  1,2: unfold create_checkout_session, try_catch, checkout_session_try;
    destruct (truthy (body_planId req)); [|done]; cbn;
    destruct (plan_of_planId (body_planId req)) as [[[[amount interval] count] name]|];
    [|done]; unfold bind, lift, stripe_request; cbn;
    destruct (stripe_create env (CreateProduct _ _)); [|done]; cbn;
    destruct (stripe_create env (CreatePrice _ _ _ _ _)); [|done]; cbn;
    destruct (truthy (body_email req)); cbn;
    [destruct (customers_list env (body_email req)) as [[|c cs]|err]; cbn;
     [destruct (stripe_create env (CreateCustomer _ _)); cbn; [|done]| |done]|];
    by destruct (stripe_create env (CreateSession _ _ _ _ _ _ _)).
Qed.

(** ** Events out of order *)

(** X24. A paid invoice brings a canceled subscription back. When a
    cancellation and then a paid invoice go through for the same email,
    the row ends with status [ativo], the plan and renewal date of the
    invoice and [data_modificacao] at the time of the invoice, and it
    still has the token, customer id and subscription date it had before
    the cancellation. *)
Theorem invoice_after_cancellation env now1 now2 sub invoice w
    customerId1 cust1 subscriptionId customerId2 subscribed cust2 plan e row :
  as_truthy (customer sub) = Some customerId1 ->
  customers_retrieve env customerId1 = inl cust1 ->
  customer_email cust1 = Some e ->
  as_truthy (subscription invoice) = Some subscriptionId ->
  as_truthy (customer invoice) = Some customerId2 ->
  subscriptions_retrieve env subscriptionId = inl subscribed ->
  customers_retrieve env customerId2 = inl cust2 ->
  first_plan subscribed = Some plan ->
  customer_email cust2 = Some e ->
  db_fault env (queries w) = None ->
  db_fault env (S (queries w)) = None ->
  usuarios w !! e = Some row ->
  usuarios
    (snd (handleInvoicePaid env now2 invoice
            (snd (handleSubscriptionCanceled env now1 sub w)))) !! e
  = Some (mkUsuario (id row) (email row) (nome row) (stripe_customer_id row)
            "ativo" (Some (fst (plan_of_interval plan))) (api_key row)
            (data_criacao row) (data_assinatura row)
            (Some (renewalRule plan now2)) (Some now2)).
Proof.
  intros Hc1 Hcust1 He1 Hs Hc2 Hsub Hcust2 Hplan He2 Hq1 Hq2 Hrow.
  rewrite (canceled_update _ _ _ _ _ _ Hc1 Hcust1 Hq1), He1. cbn [snd].
  match goal with
  | |- context [handleInvoicePaid env now2 invoice ?w1] =>
      rewrite (invoice_update env now2 invoice w1 _ _ _ _ _ Hs Hc2 Hsub Hcust2
                 Hplan Hq2)
  end.
  rewrite He2. cbn [snd usuarios].
  by rewrite !lookup_alter_eq, Hrow.
Qed.

Lemma invoice_after_cancellation_witness :
  usuarios
    (snd (handleInvoicePaid Sample.env Sample.t1 Sample.invoice
            (snd (handleSubscriptionCanceled Sample.env Sample.t0
                    Sample.invoice Sample.one_row)))) !! "a@x.com"
  = Some (mkUsuario 1 "a@x.com" None None "ativo" (Some "Plano Anual")
            (Some "tok") (DateTime 2023 12 1 0) None
            (Some (DateTime 2025 3 31 0)) (Some Sample.t1)).
Proof.
  apply (invoice_after_cancellation Sample.env Sample.t0 Sample.t1
           Sample.invoice Sample.invoice Sample.one_row
           "cus_1" {| customer_id := "cus_1"; customer_email := Some "a@x.com" |}
           "sub_1" "cus_1"
           {| items_data :=
                [ {| item_plan := Some {| interval := "year"; interval_count := 1 |} |} ] |}
           {| customer_id := "cus_1"; customer_email := Some "a@x.com" |}
           {| interval := "year"; interval_count := 1 |}
           "a@x.com" Sample.old_row);
    reflexivity.
Defined.
